(** * The ModelRegistry controller: reconciliation, apply and finalizer logic

    A shallow embedding of [internal/controller/modelregistry_controller.go].
    The object store client, the template renderer, the patch library and
    the event recorder are interfaces in the Go code; here the client and
    the renderer are fields of the reconciler record, the library functions
    are a record of their own, and every client call and recorded event is
    written, in order, to a log that the theorems read. *)

From stdpp Require Import gmap strings list fin_maps.

Local Open Scope string_scope.

(** ** Errors (k8s.io/apimachinery/pkg/api/errors) *)

(** Modelled from the spec: the error values of the object store client,
    which the Go code only inspects through [errors.IsNotFound] and
    [errors.IsConflict]; section 6 of the spec names the three classes
    NotFound, Conflict and Other.  A Go [error] that is no API status error
    (template or YAML failure) is a [PlainError]. *)
Inductive StatusReason :=
| StatusReasonNotFound
| StatusReasonConflict
| StatusReasonOther (reason : string).

Inductive goError :=
| StatusError (reason : StatusReason) (message : string)
| PlainError (message : string).

(** A Go value of type [error]; [None] is [nil]. *)
Definition error := option goError.

Global Instance StatusReason_eq_dec : EqDecision StatusReason.
Proof. solve_decision. Defined.
Global Instance goError_eq_dec : EqDecision goError.
Proof. solve_decision. Defined.

Module errors.
Definition IsNotFound (err : error) : bool :=
  match err with
  | Some (StatusError StatusReasonNotFound _) => true
  | _ => false
  end.

Definition IsConflict (err : error) : bool :=
  match err with
  | Some (StatusError StatusReasonConflict _) => true
  | _ => false
  end.

(** [err.Error()], used where the Go code formats an error with %w. *)
Definition Error (err : goError) : string :=
  match err with
  | StatusError _ message => message
  | PlainError message => message
  end.
End errors.

(** ** API types *)

(** Modelled from the spec: [types.NamespacedName], the key of an object
    ("identity (namespace+name)"). *)
Record NamespacedName := { Namespace : string; Name : string }.

Global Instance NamespacedName_eq_dec : EqDecision NamespacedName.
Proof. solve_decision. Defined.

(** Modelled from the spec: [ctrl.Request] and [ctrl.Result] of
    controller-runtime, "reconcile(key) -> (requeue: bool, error)".  The
    request embeds the namespaced name; of the result the controller only
    sets [Requeue]. *)
Record Request := { ReqKey : NamespacedName }.
Record Result := { Requeue : bool }.

(** Modelled from the spec: the status of a condition,
    "status∈{True,False,Unknown}" ([metav1.ConditionStatus] and
    [corev1.ConditionStatus]). *)
Inductive ConditionStatus := ConditionTrue | ConditionFalse | ConditionUnknown.

Global Instance ConditionStatus_eq_dec : EqDecision ConditionStatus.
Proof. solve_decision. Defined.

Module metav1.
(** Modelled from the spec: [metav1.Condition], "(type, status, reason,
    message)"; its clock field [LastTransitionTime] is left out. *)
Record Condition := {
  Type_ : string;
  Status : ConditionStatus;
  Reason : string;
  Message : string
}.

Global Instance Condition_eq_dec : EqDecision Condition.
Proof. solve_decision. Defined.
End metav1.

Module meta.
Import metav1.

(** Modelled from the spec: [meta.FindStatusCondition] and
    [meta.SetStatusCondition] of apimachinery.  "Conditions are keyed by
    type; setting a condition with the same type replaces it"; a type that
    is not yet there is appended. *)
Fixpoint FindStatusCondition (conditions : list Condition) (conditionType : string)
  : option Condition :=
  match conditions with
  | [] => None
  | c :: rest =>
      if decide (Type_ c = conditionType) then Some c
      else FindStatusCondition rest conditionType
  end.

Fixpoint SetStatusCondition (conditions : list Condition) (newCondition : Condition)
  : list Condition :=
  match conditions with
  | [] => [newCondition]
  | c :: rest =>
      if decide (Type_ c = Type_ newCondition) then newCondition :: rest
      else c :: SetStatusCondition rest newCondition
  end.
End meta.

Module appsv1.
(** Modelled from the spec: what the controller reads of the primary
    workload, "that resource's own reported availability":
    [appsv1.DeploymentCondition] with its type and status, the constant
    [appsv1.DeploymentAvailable], and [appsv1.Deployment] with its name and
    [Status.Conditions]. *)
Record DeploymentCondition := {
  Type_ : string;
  Status : ConditionStatus
}.

Definition DeploymentAvailable : string := "Available".

Record Deployment := {
  Name : string;
  Conditions : list DeploymentCondition   (* Status.Conditions *)
}.
End appsv1.

(** Modelled from the spec: [ModelRegistrySpec] of api/v1alpha1, "opaque
    parameters consumed by the renderer". *)
Record ModelRegistrySpec := { SpecFields : list (string * string) }.

(** Modelled from the spec: [ModelRegistry] of api/v1alpha1 with its embedded
    [ObjectMeta], the parent resource of section 3: "identity
    (namespace+name), a spec, a mutable status containing an ordered set of
    named conditions, a set of finalizer tokens, and an optional deletion
    timestamp". *)
Record ModelRegistry := {
  mrName : string;
  mrNamespace : string;
  Finalizers : list string;
  DeletionTimestamp : option Z;
  Spec : ModelRegistrySpec;
  Conditions : list metav1.Condition   (* Status.Conditions *)
}.

Definition withFinalizers (o : ModelRegistry) (f : list string) : ModelRegistry :=
  {| mrName := mrName o; mrNamespace := mrNamespace o; Finalizers := f;
     DeletionTimestamp := DeletionTimestamp o; Spec := Spec o;
     Conditions := Conditions o |}.

Definition withConditions (o : ModelRegistry) (c : list metav1.Condition) : ModelRegistry :=
  {| mrName := mrName o; mrNamespace := mrNamespace o; Finalizers := Finalizers o;
     DeletionTimestamp := DeletionTimestamp o; Spec := Spec o;
     Conditions := c |}.

Module controllerutil.
(** Modelled from the spec: the finalizer helpers of controller-runtime
    over the parent's "set of finalizer tokens".  [AddFinalizer] and
    [RemoveFinalizer] report whether the list changed. *)
Definition ContainsFinalizer (o : ModelRegistry) (finalizer : string) : bool :=
  bool_decide (finalizer ∈ Finalizers o).

Definition AddFinalizer (o : ModelRegistry) (finalizer : string) : ModelRegistry * bool :=
  if bool_decide (finalizer ∈ Finalizers o) then (o, false)
  else (withFinalizers o (Finalizers o ++ [finalizer]), true).

Definition RemoveFinalizer (o : ModelRegistry) (finalizer : string) : ModelRegistry * bool :=
  let f := filter (λ e, e ≠ finalizer) (Finalizers o) in
  (withFinalizers o f, bool_decide (length (Finalizers o) ≠ length f)).
End controllerutil.

(** ** Managed resources as the apply engine sees them *)

(** The Go types [corev1.ServiceAccount], [corev1.Service] and
    [appsv1.Deployment] of the three managed resources; the type of the
    object passed to the client selects the store's resource. *)
Inductive ResourceType := ServiceAccountType | ServiceType | DeploymentType.

Global Instance ResourceType_eq_dec : EqDecision ResourceType.
Proof. solve_decision. Defined.

(** A JSON document as a finite map from the path of a leaf to its scalar. *)
Abbreviation Doc := (gmap (list string) string).

(** Modelled from the spec: a managed resource as [createOrUpdate] sees it
    through [client.Object] and the patch library: its key ("identity derived
    deterministically from the parent's identity"), its JSON encoding, and
    the last-applied annotation kept decoded. *)
Record Object := {
  TypeOf : ResourceType;
  ObjNamespace : string;
  ObjName : string;
  Fields : Doc;
  LastApplied : option Doc
}.

Definition ObjectKeyFromObject (obj : Object) : NamespacedName :=
  {| Namespace := ObjNamespace obj; Name := ObjName obj |}.

(** ** The patch library (github.com/banzaicloud/k8s-objectmatcher/patch) *)

Module patch.
Inductive CalculateOption :=
| IgnoreStatusFields
| IgnoreField (name : string).

(** A patch: the leaves to set ([Some v]) and the leaves to delete ([None]). *)
Record PatchResult := {
  Patch : gmap (list string) (option string);
  Current : Doc;
  Modified : Doc;
  Original : Doc
}.

Definition IsEmpty (p : PatchResult) : bool := bool_decide (Patch p = ∅).

(** Modelled from the spec: the patch maker and the annotator, which are not
    part of the repository.  Section 4.1: "compute a structural difference
    between the live object and the intended object, ignoring fields that
    are store-managed", "comparing against a stored last-applied snapshot";
    the annotator stamps the intended object "with a last-applied annotation
    capturing its full rendered body".  An option removes one top-level
    field from both documents; the difference is the three-way merge of the
    snapshot, the intended and the live document: every leaf of the intended
    document that the live one lacks or holds with another value, and every
    leaf of the snapshot that the intended document dropped and the live one
    still has. *)
Definition deleteField (name : string) (d : Doc) : Doc :=
  filter (λ kv, head kv.1 ≠ Some name) d.

Definition optionField (opt : CalculateOption) : string :=
  match opt with
  | IgnoreStatusFields => "status"
  | IgnoreField name => name
  end.

Definition applyOption (cm : Doc * Doc) (opt : CalculateOption) : Doc * Doc :=
  (deleteField (optionField opt) cm.1, deleteField (optionField opt) cm.2).

Definition threeWayMerge (original modified current : Doc)
  : gmap (list string) (option string) :=
  let delta := filter (λ kv, current !! kv.1 ≠ Some kv.2) modified in
  let deletions :=
    filter (λ kv, modified !! kv.1 = None ∧ is_Some (current !! kv.1)) original in
  (Some <$> delta) ∪ ((λ _, None) <$> deletions).

Definition Calculate (currentObject modifiedObject : Object)
  (opts : list CalculateOption) : goError + PatchResult :=
  let cm := foldl applyOption (Fields currentObject, Fields modifiedObject) opts in
  let original := default ∅ (LastApplied currentObject) in
  inr {| Patch := threeWayMerge original cm.2 cm.1;
         Current := cm.1; Modified := cm.2; Original := original |}.

Definition SetLastAppliedAnnotation (obj : Object) : goError + Object :=
  inr {| TypeOf := TypeOf obj; ObjNamespace := ObjNamespace obj;
         ObjName := ObjName obj; Fields := Fields obj;
         LastApplied := Some (Fields obj) |}.
End patch.

(** wrapper for template parameters *)
Record ModelRegistryParams := {
  ParamsName : string;
  ParamsNamespace : string;
  ParamsSpec : ModelRegistrySpec
}.

(** The functions of other packages that the controller calls and that
    have no effect on the store: [patch.DefaultAnnotator] and
    [patch.DefaultPatchMaker], [yaml.Unmarshal] into an object of the given
    type, [ctrl.SetControllerReference] with the reconciler's scheme, and
    the [Default] method of [ModelRegistry] (api/v1alpha1). *)
Record Libraries := {
  SetLastAppliedAnnotation : Object → goError + Object;
  Calculate : Object → Object → list patch.CalculateOption → goError + patch.PatchResult;
  Unmarshal : string → ResourceType → goError + Object;
  SetControllerReference : ModelRegistry → Object → goError + Object;
  Default : ModelRegistry → ModelRegistry
}.

(** ** The client interface and the log of what the controller did *)

Inductive Call :=
| CallGet (key : NamespacedName)
| CallUpdate (obj : ModelRegistry)
| CallStatusUpdate (obj : ModelRegistry)
| CallGetDeployment (key : NamespacedName)
| CallGetObject (t : ResourceType) (key : NamespacedName)
| CallCreate (obj : Object)
| CallUpdateObject (obj : Object).

(** A client call with the error it returned, or an event handed to the
    recorder. *)
Inductive Action :=
| ClientCall (c : Call) (err : error)
| RecorderEvent (eventtype reason message : string).

(** [client.Client], one operation per type of object the controller passes
    to it.  [W] is the state of the store; an operation returns the error
    or the object as the store answered it.  In Go the answer is written
    into the object passed in, which is left as it was on an error. *)
Record Client (W : Type) := {
  Get : NamespacedName → W → (goError + ModelRegistry) * W;
  Update : ModelRegistry → W → (goError + ModelRegistry) * W;
  StatusUpdate : ModelRegistry → W → (goError + ModelRegistry) * W;
  GetDeployment : NamespacedName → W → (goError + appsv1.Deployment) * W;
  GetObject : ResourceType → NamespacedName → W → (goError + Object) * W;
  Create : Object → W → (goError + Object) * W;
  UpdateObject : Object → W → (goError + Object) * W
}.
Arguments Get {W}.
Arguments Update {W}.
Arguments StatusUpdate {W}.
Arguments GetDeployment {W}.
Arguments GetObject {W}.
Arguments Create {W}.
Arguments UpdateObject {W}.

(** ModelRegistryReconciler reconciles a ModelRegistry object.  The
    recorder and the logger have no field: events go to the log of actions,
    log lines are dropped. *)
Record ModelRegistryReconciler (W : Type) := {
  client : Client W;
  Template : string → ModelRegistryParams → goError + string;
  EnableWebhooks : bool
}.
Arguments client {W}.
Arguments Template {W}.
Arguments EnableWebhooks {W}.

(** ** Function bodies: store state, log, early return *)

Record Out (W A : Type) := { value : A; world : W; log : list Action }.
Arguments value {W A}.
Arguments world {W A}.
Arguments log {W A}.

(** A Go function returning [A], run from a state of the store. *)
Definition M (W A : Type) := W → Out W A.

(** A statement of a function that returns [R]: it either returns from the
    function ([inl]) or goes on with a value ([inr]). *)
Definition Stmt (W R A : Type) := W → Out W (R + A).

Definition pure {W R A} (a : A) : Stmt W R A :=
  λ w, {| value := inr a; world := w; log := [] |}.

Definition Return {W R A} (r : R) : Stmt W R A :=
  λ w, {| value := inl r; world := w; log := [] |}.

Definition bind {W R A B} (c : Stmt W R A) (k : A → Stmt W R B) : Stmt W R B :=
  λ w,
    match c w with
    | {| value := inl r; world := w1; log := l1 |} =>
        {| value := inl r; world := w1; log := l1 |}
    | {| value := inr a; world := w1; log := l1 |} =>
        match k a w1 with
        | {| value := v; world := w2; log := l2 |} =>
            {| value := v; world := w2; log := l1 ++ l2 |}
        end
    end.

Definition func {W R} (body : Stmt W R Empty_set) : M W R :=
  λ w,
    match body w with
    | {| value := inl r; world := w1; log := l1 |} =>
        {| value := r; world := w1; log := l1 |}
    | {| value := inr e |} => match e with end
    end.

(** Calling another function of the controller. *)
Definition call {W R A} (f : M W A) : Stmt W R A :=
  λ w,
    match f w with
    | {| value := a; world := w1; log := l1 |} =>
        {| value := inr a; world := w1; log := l1 |}
    end.

Definition errorOf {A} (res : goError + A) : error :=
  match res with inl err => Some err | inr _ => None end.

(** Calling the client: the call and its error are logged. *)
Definition invoke {W R A} (op : W → (goError + A) * W) (c : Call) : Stmt W R (goError + A) :=
  λ w,
    match op w with
    | (res, w1) =>
        {| value := inr res; world := w1; log := [ClientCall c (errorOf res)] |}
    end.

(** [r.Recorder.Event(object, eventtype, reason, message)]. *)
Definition Event {W R} (eventtype reason message : string) : Stmt W R unit :=
  λ w, {| value := inr tt; world := w; log := [RecorderEvent eventtype reason message] |}.

Declare Scope go_scope.
Delimit Scope go_scope with go.
Notation "x <- c ;; k" := (bind c (λ x, k))
  (at level 100, c at next level, right associativity) : go_scope.
Notation "c ;; k" := (bind c (λ _, k))
  (at level 100, right associativity) : go_scope.
(** ** package controller *)

Definition modelRegistryFinalizer : string := "modelregistry.opendatahub.io/finalizer".

(** Definitions to manage status conditions *)
Definition ConditionTypeAvailable : string := "Available".
Definition ConditionTypeProgressing : string := "Progressing".
Definition ConditionTypeDegraded : string := "Degraded".

Definition ReasonCreated : string := "CreatedDeployment".
Definition ReasonCreating : string := "CreatingDeployment".
Definition ReasonUpdating : string := "UpdatingDeployment".
Definition ReasonAvailable : string := "DeploymentAvailable".
Definition ReasonUnavailable : string := "DeploymentUnavailable".

Inductive OperationResult :=
| ResourceUnchanged   (* the resource has not been changed *)
| ResourceCreated     (* a new resource is created *)
| ResourceUpdated.    (* an existing resource is updated *)

Global Instance OperationResult_eq_dec : EqDecision OperationResult.
Proof. solve_decision. Defined.

Definition IgnoreDeletingErrors (err : error) : error :=
  if bool_decide (err = None) then None
  else if errors.IsNotFound err || errors.IsConflict err then None
  else err.

(** Modelled from the spec: [client.IgnoreNotFound] of controller-runtime,
    nil for a NotFound error ("absence there triggers create") and the error
    itself otherwise. *)
Definition IgnoreNotFound (err : error) : error :=
  if errors.IsNotFound err then None else err.

(** The object a client call leaves in the variable that was passed to it. *)
Definition answer {A} (res : goError + A) (old : A) : A :=
  match res with inl _ => old | inr obj => obj end.

(** [meta.SetStatusCondition(&modelRegistry.Status.Conditions, c)]. *)
Definition setCondition (o : ModelRegistry) (c : metav1.Condition) : ModelRegistry :=
  withConditions o (meta.SetStatusCondition (Conditions o) c).

(** The loop of [setRegistryStatus] over [deployment.Status.Conditions]:
    [available] starts false and the first condition of type Available
    decides it. *)
Fixpoint deploymentAvailable (conditions : list appsv1.DeploymentCondition) : bool :=
  match conditions with
  | [] => false
  | c :: rest =>
      if decide (appsv1.Type_ c = appsv1.DeploymentAvailable)
      then bool_decide (appsv1.Status c = ConditionTrue)
      else deploymentAvailable rest
  end.

(** The Go type that %T prints for the object passed to [Apply]. *)
Definition typeName (t : ResourceType) : string :=
  match t with
  | ServiceAccountType => "*v1.ServiceAccount"
  | ServiceType => "*v1.Service"
  | DeploymentType => "*v1.Deployment"
  end.

Section Controller.
Context {W : Type}.
Variable r : ModelRegistryReconciler W.
Variable lib : Libraries.

Local Open Scope go_scope.

(** executes given template name with params *)
Definition Apply (params : ModelRegistryParams) (templateName : string)
  (t : ResourceType) : goError + Object :=
  match Template r templateName params with
  | inl err => inl (PlainError ("error parsing templates " +:+ errors.Error err))
  | inr builder =>
      match Unmarshal lib builder t with
      | inl _ =>
          inl (PlainError ("error creating " +:+ typeName t +:+ " for model registry "
                 +:+ ParamsName params +:+ " in namespace " +:+ ParamsNamespace params))
      | inr object => inr object
      end
  end.

Definition createOrUpdate (currObj newObj : Object) : M W (OperationResult * error) :=
  func (
    let result := ResourceUnchanged in
    let key := ObjectKeyFromObject newObj in
    got <- invoke (GetObject (client r) (TypeOf currObj) key)
                  (CallGetObject (TypeOf currObj) key) ;;
    currObj <- match got with
               | inl err =>
                   match IgnoreNotFound (Some err) with
                   | None =>
                       (* create object *)
                       let result := ResourceCreated in
                       (* save last applied config in annotation similar to kubectl apply *)
                       newObj <- match SetLastAppliedAnnotation lib newObj with
                                 | inl err => Return (result, Some err)
                                 | inr obj => pure obj
                                 end ;;
                       created <- invoke (Create (client r) newObj) (CallCreate newObj) ;;
                       Return (result, errorOf created)
                   | Some _ =>
                       (* get error *)
                       Return (result, Some err)
                   end
               | inr obj => pure obj
               end ;;
    (* create a patch by comparing objects *)
    patchResult <- match Calculate lib currObj newObj
                           [patch.IgnoreStatusFields; patch.IgnoreField "apiVersion";
                            patch.IgnoreField "kind"] with
                   | inl err => Return (result, Some err)
                   | inr p => pure p
                   end ;;
    if negb (patch.IsEmpty patchResult) then
      (* update object *)
      let result := ResourceUpdated in
      (* update last applied config in annotation *)
      newObj <- match SetLastAppliedAnnotation lib newObj with
                | inl err => Return (result, Some err)
                | inr obj => pure obj
                end ;;
      updated <- invoke (UpdateObject (client r) newObj) (CallUpdateObject newObj) ;;
      Return (result, errorOf updated)
    else
      Return (result, None)).

(** [createOrUpdateDeployment], [createOrUpdateService] and
    [createOrUpdateServiceAccount] are the same function up to the Go type
    of the variable they render into: render the template, set the
    controller reference, apply the object with a copy of itself as the
    current object. *)
Definition createOrUpdateTyped (t : ResourceType) (params : ModelRegistryParams)
  (registry : ModelRegistry) (templateName : string) : M W (OperationResult * error) :=
  func (
    let result := ResourceUnchanged in
    object <- match Apply params templateName t with
              | inl err => Return (result, Some err)
              | inr obj => pure obj
              end ;;
    object <- match SetControllerReference lib registry object with
              | inl err => Return (result, Some err)
              | inr obj => pure obj
              end ;;
    applied <- call (createOrUpdate object object) ;;
    let '(result, err) := applied in
    match err with
    | Some _ => Return (result, err)
    | None => Return (result, None)
    end).

Definition createOrUpdateDeployment := createOrUpdateTyped DeploymentType.
Definition createOrUpdateService := createOrUpdateTyped ServiceType.
Definition createOrUpdateServiceAccount := createOrUpdateTyped ServiceAccountType.

Definition updateRegistryResources (params : ModelRegistryParams)
  (registry : ModelRegistry) : M W (OperationResult * error) :=
  func (
    applied <- call (createOrUpdateServiceAccount params registry
                       "serviceaccount.yaml.tmpl") ;;
    let '(result, err) := applied in
    match err with Some _ => Return (result, err) | None => pure tt end ;;
    applied <- call (createOrUpdateService params registry "service.yaml.tmpl") ;;
    let '(result2, err) := applied in
    match err with Some _ => Return (result2, err) | None => pure tt end ;;
    let result := if bool_decide (result2 ≠ ResourceUnchanged) then result2 else result in
    applied <- call (createOrUpdateDeployment params registry "deployment.yaml.tmpl") ;;
    let '(result3, err) := applied in
    match err with Some _ => Return (result3, err) | None => pure tt end ;;
    let result := if bool_decide (result3 ≠ ResourceUnchanged) then result3 else result in
    Return (result, None)).

Definition setRegistryStatus (req : Request) (operationResult : OperationResult)
  : M W error :=
  func (
    got <- invoke (Get (client r) (ReqKey req)) (CallGet (ReqKey req)) ;;
    modelRegistry <- match got with
                     | inl err => Return (Some err)
                     | inr obj => pure obj
                     end ;;
    let '(status, reason, message) :=
      match operationResult with
      | ResourceCreated =>
          (ConditionFalse, ReasonCreating,
           λ name, "Creating deployment for custom resource " +:+ name)
      | ResourceUpdated =>
          (ConditionFalse, ReasonUpdating,
           λ name, "Updating deployment for custom resource " +:+ name)
      | ResourceUnchanged =>
          (ConditionTrue, ReasonCreated,
           λ name, "Deployment for custom resource " +:+ name
                   +:+ " was successfully created")
      end in
    let modelRegistry :=
      setCondition modelRegistry
        {| metav1.Type_ := ConditionTypeProgressing; metav1.Status := status;
           metav1.Reason := reason; metav1.Message := message (mrName modelRegistry) |} in
    (* determine registry available condition *)
    got <- invoke (GetDeployment (client r) (ReqKey req)) (CallGetDeployment (ReqKey req)) ;;
    deployment <- match got with
                  | inl err => Return (Some err)
                  | inr obj => pure obj
                  end ;;
    (* check deployment availability *)
    let available := deploymentAvailable (appsv1.Conditions deployment) in
    let '(status, reason, message) :=
      if available then
        (ConditionTrue, ReasonAvailable,
         λ name, "Deployment for custom resource " +:+ name +:+ " is available")
      else
        (ConditionFalse, ReasonUnavailable,
         λ name, "Deployment for custom resource " +:+ name +:+ " is not available") in
    let modelRegistry :=
      setCondition modelRegistry
        {| metav1.Type_ := ConditionTypeAvailable; metav1.Status := status;
           metav1.Reason := reason; metav1.Message := message (mrName modelRegistry) |} in
    updated <- invoke (StatusUpdate (client r) modelRegistry)
                      (CallStatusUpdate modelRegistry) ;;
    match updated with
    | inl err => Return (Some err)
    | inr _ => Return None
    end).

(** The implementation raises an event; it is the whole cleanup. *)
Definition doFinalizerOperationsForModelRegistry (registry : ModelRegistry) : M W unit :=
  func (
    Event "Warning" "Deleting"
      ("Custom Resource " +:+ mrName registry +:+ " is being deleted from the namespace "
         +:+ mrNamespace registry) ;;
    Return tt).

Definition logResultAsEvent (registry : ModelRegistry) (result : OperationResult)
  : M W unit :=
  func (
    match result with
    | ResourceCreated =>
        Event "Normal" "ServiceCreated"
          ("Created service for custom resource " +:+ mrName registry
             +:+ " in namespace " +:+ mrNamespace registry)
    | ResourceUpdated =>
        Event "Normal" "ServiceUpdated"
          ("Updated service for custom resource " +:+ mrName registry
             +:+ " in namespace " +:+ mrNamespace registry)
    | ResourceUnchanged => pure tt
    end ;;
    Return tt).

(** Reconcile is part of the main kubernetes reconciliation loop which aims
    to move the current state of the cluster closer to the desired state. *)
Definition Reconcile (req : Request) : M W (Result * error) :=
  func (
    got <- invoke (Get (client r) (ReqKey req)) (CallGet (ReqKey req)) ;;
    modelRegistry <- match got with
                     | inl err =>
                         if errors.IsNotFound (Some err) then
                           (* the custom resource is not found: stop the reconciliation *)
                           Return ({| Requeue := false |}, None)
                         else
                           (* Error reading the object - requeue the request. *)
                           Return ({| Requeue := false |}, Some err)
                     | inr obj => pure obj
                     end ;;
    (* Let's add a finalizer. *)
    modelRegistry <-
      (if negb (controllerutil.ContainsFinalizer modelRegistry modelRegistryFinalizer) then
         let '(modelRegistry, ok) :=
           controllerutil.AddFinalizer modelRegistry modelRegistryFinalizer in
         if negb ok then Return ({| Requeue := true |}, None)
         else
           updated <- invoke (Update (client r) modelRegistry) (CallUpdate modelRegistry) ;;
           match updated with
           | inl err => Return ({| Requeue := false |}, Some err)
           | inr obj => pure obj
           end
       else pure modelRegistry) ;;
    (* Check if the modelRegistry instance is marked to be deleted, which is
       indicated by the deletion timestamp being set. *)
    let isMarkedToBeDeleted := bool_decide (DeletionTimestamp modelRegistry ≠ None) in
    if isMarkedToBeDeleted then
      (if controllerutil.ContainsFinalizer modelRegistry modelRegistryFinalizer then
         (* an status "Degraded": this resource begins its process to be terminated *)
         let modelRegistry :=
           setCondition modelRegistry
             {| metav1.Type_ := ConditionTypeDegraded; metav1.Status := ConditionUnknown;
                metav1.Reason := "Finalizing";
                metav1.Message :=
                  "Performing finalizer operations for the custom resource: "
                    +:+ mrName modelRegistry +:+ " " |} in
         updated <- invoke (StatusUpdate (client r) modelRegistry)
                           (CallStatusUpdate modelRegistry) ;;
         let err := errorOf updated in
         let modelRegistry := answer updated modelRegistry in
         match IgnoreDeletingErrors err with
         | Some _ => Return ({| Requeue := false |}, err)
         | None => pure tt
         end ;;
         (* Perform all operations required before remove the finalizer *)
         call (doFinalizerOperationsForModelRegistry modelRegistry) ;;
         (* Re-fetch the modelRegistry Custom Resource before update the status *)
         got <- invoke (Get (client r) (ReqKey req)) (CallGet (ReqKey req)) ;;
         let err := errorOf got in
         let modelRegistry := answer got modelRegistry in
         match IgnoreDeletingErrors err with
         | Some _ => Return ({| Requeue := false |}, err)
         | None => pure tt
         end ;;
         let modelRegistry :=
           setCondition modelRegistry
             {| metav1.Type_ := ConditionTypeDegraded; metav1.Status := ConditionTrue;
                metav1.Reason := "Finalizing";
                metav1.Message :=
                  "Finalizer operations for custom resource " +:+ mrName modelRegistry
                    +:+ " were successfully accomplished" |} in
         updated <- invoke (StatusUpdate (client r) modelRegistry)
                           (CallStatusUpdate modelRegistry) ;;
         let err := errorOf updated in
         let modelRegistry := answer updated modelRegistry in
         match IgnoreDeletingErrors err with
         | Some _ => Return ({| Requeue := false |}, err)
         | None => pure tt
         end ;;
         let '(modelRegistry, ok) :=
           controllerutil.RemoveFinalizer modelRegistry modelRegistryFinalizer in
         if negb ok then Return ({| Requeue := true |}, None)
         else
           updated <- invoke (Update (client r) modelRegistry) (CallUpdate modelRegistry) ;;
           let err := errorOf updated in
           match IgnoreDeletingErrors err with
           | Some _ => Return ({| Requeue := false |}, err)
           | None => pure tt
           end
       else pure tt) ;;
      Return ({| Requeue := false |}, None)
    else
      (* set defaults if not using webhooks *)
      let modelRegistry :=
        if negb (EnableWebhooks r) then Default lib modelRegistry else modelRegistry in
      let params :=
        {| ParamsName := Name (ReqKey req); ParamsNamespace := Namespace (ReqKey req);
           ParamsSpec := Spec modelRegistry |} in
      (* update registry service *)
      applied <- call (updateRegistryResources params modelRegistry) ;;
      let '(result, err) := applied in
      match err with
      | Some _ => Return ({| Requeue := false |}, err)
      | None => pure tt
      end ;;
      call (logResultAsEvent modelRegistry result) ;;
      (* set custom resource status *)
      err <- call (setRegistryStatus req result) ;;
      match err with
      | Some _ => Return ({| Requeue := true |}, err)
      | None => pure tt
      end ;;
      if bool_decide (result ≠ ResourceUnchanged) then
        (* requeue to update status *)
        Return ({| Requeue := true |}, None)
      else
        Return ({| Requeue := false |}, None)).

End Controller.

(** ** An object store in memory *)

Module memstore.
(** Modelled from the spec: the object store, an external collaborator
    (sections 3 and 6).  [get] answers NotFound for a key that is not
    there; [create] stores the object; [update] replaces the stored body and
    leaves the status alone, and removes a parent that carries a deletion
    timestamp once its finalizer list is empty; [updateStatus] replaces only
    the conditions.  The store keeps what it is given and adds nothing of
    its own.  Version tokens are not modelled: a conflict, or any other
    failure, is an entry of [faults], which holds the error the store
    answers to the next calls, oldest first ([None]: the call goes
    through). *)
Record Store := {
  parents : gmap (string * string) ModelRegistry;
  objects : gmap (string * (string * string)) Object;
  deployments : gmap (string * string) (list appsv1.DeploymentCondition);
  faults : list error
}.

Definition parentKey (key : NamespacedName) : string * string :=
  (Namespace key, Name key).

Definition objectKey (t : ResourceType) (key : NamespacedName)
  : string * (string * string) :=
  (typeName t, (Namespace key, Name key)).

Definition withFaults (w : Store) (f : list error) : Store :=
  {| parents := parents w; objects := objects w; deployments := deployments w;
     faults := f |}.

Definition withParents (w : Store) (p : gmap (string * string) ModelRegistry) : Store :=
  {| parents := p; objects := objects w; deployments := deployments w;
     faults := faults w |}.

Definition withObjects (w : Store) (o : gmap (string * (string * string)) Object) : Store :=
  {| parents := parents w; objects := o; deployments := deployments w;
     faults := faults w |}.

Definition notFound : goError := StatusError StatusReasonNotFound "not found".

Definition guarded {A} (op : Store → (goError + A) * Store) (w : Store)
  : (goError + A) * Store :=
  match faults w with
  | Some err :: rest => (inl err, withFaults w rest)
  | None :: rest => op (withFaults w rest)
  | [] => op w
  end.

Definition get (key : NamespacedName) : Store → (goError + ModelRegistry) * Store :=
  guarded (λ w,
    match parents w !! parentKey key with
    | Some obj => (inr obj, w)
    | None => (inl notFound, w)
    end).

Definition update (obj : ModelRegistry) : Store → (goError + ModelRegistry) * Store :=
  guarded (λ w,
    let key := (mrNamespace obj, mrName obj) in
    match parents w !! key with
    | Some old =>
        let new := withConditions obj (Conditions old) in
        if bool_decide (DeletionTimestamp old ≠ None ∧ Finalizers obj = []) then
          (inr new, withParents w (delete key (parents w)))
        else (inr new, withParents w (<[key := new]> (parents w)))
    | None => (inl notFound, w)
    end).

Definition updateStatus (obj : ModelRegistry) : Store → (goError + ModelRegistry) * Store :=
  guarded (λ w,
    let key := (mrNamespace obj, mrName obj) in
    match parents w !! key with
    | Some old =>
        let new := withConditions old (Conditions obj) in
        (inr new, withParents w (<[key := new]> (parents w)))
    | None => (inl notFound, w)
    end).

Definition getDeployment (key : NamespacedName)
  : Store → (goError + appsv1.Deployment) * Store :=
  guarded (λ w,
    match objects w !! objectKey DeploymentType key with
    | Some _ =>
        (inr {| appsv1.Name := Name key;
                appsv1.Conditions := default [] (deployments w !! parentKey key) |}, w)
    | None => (inl notFound, w)
    end).

Definition getObject (t : ResourceType) (key : NamespacedName)
  : Store → (goError + Object) * Store :=
  guarded (λ w,
    match objects w !! objectKey t key with
    | Some obj => (inr obj, w)
    | None => (inl notFound, w)
    end).

Definition create (obj : Object) : Store → (goError + Object) * Store :=
  guarded (λ w,
    let key := objectKey (TypeOf obj) (ObjectKeyFromObject obj) in
    match objects w !! key with
    | Some _ => (inl (StatusError (StatusReasonOther "AlreadyExists") "already exists"), w)
    | None => (inr obj, withObjects w (<[key := obj]> (objects w)))
    end).

Definition updateObject (obj : Object) : Store → (goError + Object) * Store :=
  guarded (λ w,
    let key := objectKey (TypeOf obj) (ObjectKeyFromObject obj) in
    match objects w !! key with
    | Some _ => (inr obj, withObjects w (<[key := obj]> (objects w)))
    | None => (inl notFound, w)
    end).

Definition Client : Client Store :=
  {| Get := get; Update := update; StatusUpdate := updateStatus;
     GetDeployment := getDeployment; GetObject := getObject;
     Create := create; UpdateObject := updateObject |}.
End memstore.

(** ** A reconciler over the store in memory, for the examples *)

(** The patch library as modelled above, a renderer that yields the name
    it is given and an unmarshaller that builds, in namespace ns1, an
    object of that name with one leaf per template. *)
Definition modelLibraries : Libraries :=
  {| SetLastAppliedAnnotation := patch.SetLastAppliedAnnotation;
     Calculate := patch.Calculate;
     Unmarshal := λ builder t,
       inr {| TypeOf := t; ObjNamespace := "ns1"; ObjName := builder;
              Fields := {[ ["kind"] := typeName t; ["metadata"; "name"] := builder ]};
              LastApplied := None |};
     SetControllerReference := λ registry obj, inr obj;
     Default := λ registry, registry |}.

Definition exampleReconciler : ModelRegistryReconciler memstore.Store :=
  {| client := memstore.Client;
     Template := λ templateName params, inr (ParamsName params);
     EnableWebhooks := false |}.

Definition demoKey : NamespacedName := {| Namespace := "ns1"; Name := "demo" |}.
Definition demoRequest : Request := {| ReqKey := demoKey |}.

Definition demo (finalizers : list string) (deletion : option Z) : ModelRegistry :=
  {| mrName := "demo"; mrNamespace := "ns1"; Finalizers := finalizers;
     DeletionTimestamp := deletion; Spec := {| SpecFields := [("image", "img:v1")] |};
     Conditions := [] |}.

Definition storeWith (parent : ModelRegistry) (f : list error) : memstore.Store :=
  {| memstore.parents := {[ ("ns1", "demo") := parent ]};
     memstore.objects := ∅; memstore.deployments := ∅; memstore.faults := f |}.


(** ** Vocabulary of the statements *)

(** A call whose error the deletion branch lets pass: nil, NotFound or
    Conflict.  Events have no outcome. *)
Definition benign (a : Action) : bool :=
  match a with
  | ClientCall _ err => bool_decide (IgnoreDeletingErrors err = None)
  | RecorderEvent _ _ _ => true
  end.

(** An update of the parent that writes the finalizer token. *)
Definition carriesToken (a : Action) : bool :=
  match a with
  | ClientCall (CallUpdate obj) _ =>
      controllerutil.ContainsFinalizer obj modelRegistryFinalizer
  | _ => false
  end.

(** What an action of the deletion branch is, read off the action itself:
    a read of the parent, a status write that carries the Degraded
    condition with some status, the deletion notification, or an update of
    the parent without the finalizer token. *)
Inductive Step :=
| StepRead
| StepDegraded (status : ConditionStatus)
| StepCleanup
| StepRemoveFinalizer
| StepOther.

Global Instance Step_eq_dec : EqDecision Step.
Proof. solve_decision. Defined.

Definition stepOf (a : Action) : Step :=
  match a with
  | ClientCall (CallGet _) _ => StepRead
  | ClientCall (CallStatusUpdate obj) _ =>
      match meta.FindStatusCondition (Conditions obj) ConditionTypeDegraded with
      | Some c => StepDegraded (metav1.Status c)
      | None => StepOther
      end
  | RecorderEvent eventtype reason _ =>
      if bool_decide (eventtype = "Warning" ∧ reason = "Deleting") then StepCleanup
      else StepOther
  | ClientCall (CallUpdate obj) _ =>
      if controllerutil.ContainsFinalizer obj modelRegistryFinalizer then StepOther
      else StepRemoveFinalizer
  | ClientCall _ _ => StepOther
  end.

Definition deletionSteps : list Step :=
  [StepRead; StepDegraded ConditionUnknown; StepCleanup; StepRead;
   StepDegraded ConditionTrue; StepRemoveFinalizer].

(** The Available condition that [setRegistryStatus] writes. *)
Definition availableCondition (name : string) (available : bool) : metav1.Condition :=
  if available then
    {| metav1.Type_ := ConditionTypeAvailable; metav1.Status := ConditionTrue;
       metav1.Reason := ReasonAvailable;
       metav1.Message := "Deployment for custom resource " +:+ name +:+ " is available" |}
  else
    {| metav1.Type_ := ConditionTypeAvailable; metav1.Status := ConditionFalse;
       metav1.Reason := ReasonUnavailable;
       metav1.Message :=
         "Deployment for custom resource " +:+ name +:+ " is not available" |}.

(** The fields that [createOrUpdate] asks the patch maker to ignore, and
    two documents that differ in such fields only. *)
Definition ignoredField (p : list string) : Prop :=
  head p = Some "status" ∨ head p = Some "apiVersion" ∨ head p = Some "kind".

Definition sameButIgnored (a b : Doc) : Prop :=
  ∀ p, ¬ ignoredField p → a !! p = b !! p.

(** How a reconcile reaches the check of the deletion timestamp with the
    parent [obj] in hand: it loaded [obj] with the token on it, or it loaded
    a parent without the token and the update that adds it answered [obj]. *)
Definition entersWith {W} (r : ModelRegistryReconciler W) (req : Request)
  (w : W) (obj : ModelRegistry) (w2 : W) : Prop :=
  ∃ loaded w1,
    Get (client r) (ReqKey req) w = (inr loaded, w1) ∧
    ((controllerutil.ContainsFinalizer loaded modelRegistryFinalizer = true ∧
      obj = loaded ∧ w2 = w1) ∨
     (controllerutil.ContainsFinalizer loaded modelRegistryFinalizer = false ∧
      Update (client r)
        (withFinalizers loaded (Finalizers loaded ++ [modelRegistryFinalizer])%list) w1
      = (inr obj, w2))).

(** A log entry that is no update of the parent carrying the token. *)
Definition quiet (a : Action) : Prop := carriesToken a = false.

(** The options that [createOrUpdate] passes to the patch maker, and a
    document without the three fields they name. *)
Definition ignores : list patch.CalculateOption :=
  [patch.IgnoreStatusFields; patch.IgnoreField "apiVersion"; patch.IgnoreField "kind"].

Definition strip (d : Doc) : Doc :=
  patch.deleteField "kind" (patch.deleteField "apiVersion" (patch.deleteField "status" d)).

(** The read that [createOrUpdate] starts with, as it shows in the log. *)
Definition readOf (currObj newObj : Object) (err : error) : Action :=
  ClientCall (CallGetObject (TypeOf currObj) (ObjectKeyFromObject newObj)) err.

(** ** Inputs of the examples *)

(** An annotator that cannot encode the object. *)
Definition failingAnnotator : Libraries :=
  {| SetLastAppliedAnnotation := λ obj, inl (PlainError "cannot encode");
     Calculate := patch.Calculate;
     Unmarshal := Unmarshal modelLibraries;
     SetControllerReference := SetControllerReference modelLibraries;
     Default := Default modelLibraries |}.

Definition conflict : goError :=
  StatusError StatusReasonConflict "the object has been modified".

Definition timeout : goError := StatusError (StatusReasonOther "Timeout") "timeout".

Definition emptyStore (f : list error) : memstore.Store :=
  {| memstore.parents := ∅; memstore.objects := ∅; memstore.deployments := ∅;
     memstore.faults := f |}.

(** The workload as rendered, and as it lives in the store once its
    controller has reported on it. *)
Definition workload : Object :=
  {| TypeOf := DeploymentType; ObjNamespace := "ns1"; ObjName := "demo";
     Fields := {[ ["kind"] := "Deployment"; ["spec"; "image"] := "img:v1" ]};
     LastApplied := None |}.

Definition liveWorkload (image : string) : Object :=
  {| TypeOf := DeploymentType; ObjNamespace := "ns1"; ObjName := "demo";
     Fields := {[ ["spec"; "image"] := image; ["status"; "replicas"] := "1" ]};
     LastApplied := Some {[ ["kind"] := "Deployment"; ["spec"; "image"] := image ]} |}.

Definition storeWithWorkload (parent : ModelRegistry) (live : Object)
  (conditions : list appsv1.DeploymentCondition) (f : list error) : memstore.Store :=
  {| memstore.parents := {[ ("ns1", "demo") := parent ]};
     memstore.objects := {[ memstore.objectKey DeploymentType demoKey := live ]};
     memstore.deployments := {[ ("ns1", "demo") := conditions ]};
     memstore.faults := f |}.

Definition annotatedWorkload : Object :=
  {| TypeOf := DeploymentType; ObjNamespace := "ns1"; ObjName := "demo";
     Fields := Fields workload; LastApplied := Some (Fields workload) |}.

(** A store whose workload was applied from an older image. *)
Definition staleStore (f : list error) : memstore.Store :=
  storeWithWorkload (demo [modelRegistryFinalizer] None) (liveWorkload "img:v0") [] f.

(** Conditions as a Deployment reports them while it rolls out. *)
Definition reported : list appsv1.DeploymentCondition :=
  [ {| appsv1.Type_ := "Progressing"; appsv1.Status := ConditionTrue |};
    {| appsv1.Type_ := "Available"; appsv1.Status := ConditionFalse |};
    {| appsv1.Type_ := "Available"; appsv1.Status := ConditionTrue |} ].

Definition isStatusWrite (a : Action) : bool :=
  match a with
  | ClientCall (CallStatusUpdate _) _ => true
  | _ => false
  end.

(** ** Vocabulary of the further properties *)

(** The Progressing condition that [setRegistryStatus] writes. *)
Definition progressingCondition (name : string) (operationResult : OperationResult)
  : metav1.Condition :=
  match operationResult with
  | ResourceCreated =>
      {| metav1.Type_ := ConditionTypeProgressing; metav1.Status := ConditionFalse;
         metav1.Reason := ReasonCreating;
         metav1.Message := "Creating deployment for custom resource " +:+ name |}
  | ResourceUpdated =>
      {| metav1.Type_ := ConditionTypeProgressing; metav1.Status := ConditionFalse;
         metav1.Reason := ReasonUpdating;
         metav1.Message := "Updating deployment for custom resource " +:+ name |}
  | ResourceUnchanged =>
      {| metav1.Type_ := ConditionTypeProgressing; metav1.Status := ConditionTrue;
         metav1.Reason := ReasonCreated;
         metav1.Message := "Deployment for custom resource " +:+ name
                             +:+ " was successfully created" |}
  end.

(** A call on a managed resource or on the workload's status. *)
Definition managedWork (a : Action) : bool :=
  match a with
  | ClientCall (CallGetObject _ _) _ | ClientCall (CallCreate _) _
  | ClientCall (CallUpdateObject _) _ | ClientCall (CallGetDeployment _) _ => true
  | _ => false
  end.

Definition isManagedWrite (a : Action) : bool :=
  match a with
  | ClientCall (CallCreate _) _ | ClientCall (CallUpdateObject _) _ => true
  | _ => false
  end.

Definition isEvent (a : Action) : bool :=
  match a with
  | RecorderEvent _ _ _ => true
  | _ => false
  end.

(** A read or an update of the parent itself. *)
Definition isParentCall (a : Action) : bool :=
  match a with
  | ClientCall (CallGet _) _ | ClientCall (CallUpdate _) _ => true
  | _ => false
  end.

(** The store's key of a managed object. *)
Definition keyOf (obj : Object) : string * (string * string) :=
  memstore.objectKey (TypeOf obj) (ObjectKeyFromObject obj).

(** The store holds a live object for [obj] against which the patch of
    [obj] is empty. *)
Definition settled (w : memstore.Store) (obj : Object) : Prop :=
  ∃ live p,
    memstore.objects w !! keyOf obj = Some live ∧
    patch.Calculate live obj ignores = inr p ∧ patch.IsEmpty p = true.

(** The decoders keep the Go type they are given. *)
Definition typedLibraries (lib : Libraries) : Prop :=
  (∀ builder t obj, Unmarshal lib builder t = inr obj → TypeOf obj = t) ∧
  (∀ registry obj owned,
     SetControllerReference lib registry obj = inr owned → TypeOf owned = TypeOf obj).

(** The parent as the deletion branch leaves it when nothing fails: both
    Degraded conditions set in turn, the token taken off. *)
Definition finalized (parent : ModelRegistry) : ModelRegistry :=
  let marked :=
    setCondition parent
      {| metav1.Type_ := ConditionTypeDegraded; metav1.Status := ConditionUnknown;
         metav1.Reason := "Finalizing";
         metav1.Message :=
           "Performing finalizer operations for the custom resource: "
             +:+ mrName parent +:+ " " |} in
  let done :=
    setCondition marked
      {| metav1.Type_ := ConditionTypeDegraded; metav1.Status := ConditionTrue;
         metav1.Reason := "Finalizing";
         metav1.Message :=
           "Finalizer operations for custom resource " +:+ mrName parent
             +:+ " were successfully accomplished" |} in
  withFinalizers done (filter (λ e, e ≠ modelRegistryFinalizer) (Finalizers done)).


Arguments IgnoreDeletingErrors : simpl never.
Arguments createOrUpdate : simpl never.
Arguments createOrUpdateTyped : simpl never.
Arguments updateRegistryResources : simpl never.
Arguments setRegistryStatus : simpl never.
Arguments logResultAsEvent : simpl never.
Arguments IgnoreNotFound : simpl never.
Arguments controllerutil.ContainsFinalizer : simpl never.
Arguments controllerutil.RemoveFinalizer : simpl never.
Arguments controllerutil.AddFinalizer : simpl never.
Arguments stepOf : simpl never.
Arguments carriesToken : simpl never.
Arguments benign : simpl never.

(** ** Proof tools *)

(** Unfolding a function body down to the client calls. *)
Ltac run :=
  cbv beta delta [func bind call invoke Event pure Return] in *; cbn in *.

(** A property of a run, kept folded while the run is evaluated. *)
Definition holds {A} (P : A → Prop) (a : A) : Prop := P a.
Arguments holds : simpl never.

Ltac program t :=
  pattern t; match goal with |- ?P t => change (holds P t) end.

Ltac in_log :=
  repeat match goal with
    | H : _ ∈ _ :: _ |- _ => apply elem_of_cons in H; destruct H as [H|H]
    | H : _ ∈ [] |- _ => apply elem_of_nil in H; destruct H
    end; simplify_eq.

(** Case analysis on whatever the evaluation is stuck on. *)
Ltac stuck :=
  match goal with
  | |- context [match ?x with _ => _ end] =>
      lazymatch x with
      | context [match _ with _ => _ end] => fail
      | _ => destruct x eqn:?; cbn
      end
  end.

(** ** Library functions *)

Lemma IgnoreDeletingErrors_spec (err : error) :
  IgnoreDeletingErrors err = None ↔
  err = None ∨ errors.IsNotFound err = true ∨ errors.IsConflict err = true.
Proof.
  unfold IgnoreDeletingErrors.
  destruct err as [[[| |reason] message|message]|]; cbn.
  all: split; [intros H; first [discriminate H | auto]
              | intros [H|[H|H]]; first [discriminate H | reflexivity]].
Qed.

Lemma IgnoreDeletingErrors_nil : IgnoreDeletingErrors None = None.
Proof. reflexivity. Qed.

Lemma IgnoreDeletingErrors_Some (err : error) (e : goError) :
  IgnoreDeletingErrors err = Some e → err = Some e.
Proof.
  unfold IgnoreDeletingErrors.
  destruct err as [[[| |reason] message|message]|]; cbn; congruence.
Qed.

Lemma IgnoreNotFound_nil (err : goError) :
  errors.IsNotFound (Some err) = true → IgnoreNotFound (Some err) = None.
Proof. unfold IgnoreNotFound. by intros ->. Qed.

Lemma RemoveFinalizer_lacks (o removed : ModelRegistry) (finalizer : string) (ok : bool) :
  controllerutil.RemoveFinalizer o finalizer = (removed, ok) →
  controllerutil.ContainsFinalizer removed finalizer = false.
Proof.
  unfold controllerutil.ContainsFinalizer, controllerutil.RemoveFinalizer.
  intros [= <- _]. cbn.
  apply bool_decide_eq_false. rewrite list_elem_of_filter. by intros [Hne _].
Qed.

Lemma AddFinalizer_absent (o : ModelRegistry) (finalizer : string) :
  controllerutil.ContainsFinalizer o finalizer = false →
  controllerutil.AddFinalizer o finalizer =
    (withFinalizers o (Finalizers o ++ [finalizer])%list, true).
Proof.
  unfold controllerutil.ContainsFinalizer, controllerutil.AddFinalizer.
  by intros ->.
Qed.

Lemma FindStatusCondition_Set (conditions : list metav1.Condition) (c : metav1.Condition) :
  meta.FindStatusCondition (meta.SetStatusCondition conditions c) (metav1.Type_ c) = Some c.
Proof.
  induction conditions as [|c' rest IH]; cbn.
  - by rewrite decide_True.
  - destruct (decide (metav1.Type_ c' = metav1.Type_ c)) as [Heq|Hne]; cbn.
    + by rewrite decide_True.
    + by rewrite decide_False.
Qed.

Lemma deploymentAvailable_first (before after : list appsv1.DeploymentCondition)
  (c : appsv1.DeploymentCondition) :
  Forall (λ c', appsv1.Type_ c' ≠ appsv1.DeploymentAvailable) before →
  appsv1.Type_ c = appsv1.DeploymentAvailable →
  deploymentAvailable (before ++ c :: after)%list
  = bool_decide (appsv1.Status c = ConditionTrue).
Proof.
  intros Hb Hc. induction Hb as [|c' before Hc' _ IH]; cbn.
  - by rewrite decide_True.
  - by rewrite decide_False.
Qed.

Lemma deploymentAvailable_none (conditions : list appsv1.DeploymentCondition) :
  Forall (λ c', appsv1.Type_ c' ≠ appsv1.DeploymentAvailable) conditions →
  deploymentAvailable conditions = false.
Proof.
  induction 1 as [|c' rest Hc' _ IH]; cbn; [done|]. by rewrite decide_False.
Qed.

(** ** Reading the log *)

Lemma stepOf_degraded (o : ModelRegistry) (c : metav1.Condition) (err : error) :
  metav1.Type_ c = ConditionTypeDegraded →
  stepOf (ClientCall (CallStatusUpdate (setCondition o c)) err)
  = StepDegraded (metav1.Status c).
Proof.
  intros Hc. unfold stepOf. cbn. by rewrite <- Hc, FindStatusCondition_Set.
Qed.


Lemma carriesToken_removed (o removed : ModelRegistry) (ok : bool) (err : error) :
  controllerutil.RemoveFinalizer o modelRegistryFinalizer = (removed, ok) →
  carriesToken (ClientCall (CallUpdate removed) err) = false.
Proof. intros H. unfold carriesToken. by rewrite (RemoveFinalizer_lacks _ _ _ _ H). Qed.

(** ** The patch model *)

Lemma lookup_deleteField (name : string) (d : Doc) (p : list string) :
  patch.deleteField name d !! p = if decide (head p = Some name) then None else d !! p.
Proof.
  unfold patch.deleteField. destruct (d !! p) as [v|] eqn:Hp.
  - case_decide as Hh.
    + apply map_lookup_filter_None. right. intros v' _ Hkeep. by apply Hkeep.
    + apply map_lookup_filter_Some. by split.
  - rewrite (proj2 (map_lookup_filter_None _ _ _)); [by case_decide|by left].
Qed.

Lemma lookup_strip (d : Doc) (p : list string) :
  strip d !! p = if decide (ignoredField p) then None else d !! p.
Proof.
  unfold strip, ignoredField. rewrite !lookup_deleteField.
  repeat case_decide; try done.
  all: exfalso; tauto.
Qed.

Lemma strip_sameButIgnored (a b : Doc) : sameButIgnored a b → strip a = strip b.
Proof.
  intros Hab. apply map_eq. intros p. rewrite !lookup_strip.
  case_decide; [done|]. by apply Hab.
Qed.

Lemma threeWayMerge_empty (original modified current : Doc) :
  patch.threeWayMerge original modified current = ∅ ↔
  (∀ p v, modified !! p = Some v → current !! p = Some v) ∧
  (∀ p, is_Some (original !! p) → modified !! p = None → current !! p = None).
Proof.
  unfold patch.threeWayMerge. rewrite map_empty. split.
  - intros Hempty. split.
    + intros p v Hm. specialize (Hempty p).
      apply lookup_union_None in Hempty as [Hdelta _].
      rewrite lookup_fmap, fmap_None in Hdelta.
      apply map_lookup_filter_None in Hdelta as [Hnone|Hall]; [congruence|].
      specialize (Hall v Hm). cbn in Hall.
      destruct (decide (current !! p = Some v)); [done|]. by destruct Hall.
    + intros p [v Ho] Hm. specialize (Hempty p).
      apply lookup_union_None in Hempty as [_ Hdel].
      rewrite lookup_fmap, fmap_None in Hdel.
      apply map_lookup_filter_None in Hdel as [Hnone|Hall]; [congruence|].
      specialize (Hall v Ho). cbn in Hall.
      destruct (current !! p) as [v'|] eqn:Hc; [|done].
      destruct Hall. split; [done|by eexists].
  - intros [Hdelta Hdel] p. apply lookup_union_None. split.
    + rewrite lookup_fmap, fmap_None. apply map_lookup_filter_None.
      destruct (modified !! p) as [v|] eqn:Hm; [right|by left].
      intros v' [= <-]. cbn. rewrite (Hdelta p v Hm). by intros Hne.
    + rewrite lookup_fmap, fmap_None. apply map_lookup_filter_None.
      destruct (original !! p) as [v|] eqn:Ho; [right|by left].
      intros v' [= <-]. cbn. intros [Hm [v' Hc]].
      rewrite (Hdel p) in Hc; [done|by eexists|done].
Qed.

Lemma Calculate_ignores (currentObject modifiedObject : Object) :
  patch.Calculate currentObject modifiedObject ignores =
    inr {| patch.Patch :=
             patch.threeWayMerge (default ∅ (LastApplied currentObject))
               (strip (Fields modifiedObject)) (strip (Fields currentObject));
           patch.Current := strip (Fields currentObject);
           patch.Modified := strip (Fields modifiedObject);
           patch.Original := default ∅ (LastApplied currentObject) |}.
Proof. reflexivity. Qed.

Lemma Calculate_sameButIgnored (live newObj : Object) :
  sameButIgnored (Fields live) (Fields newObj) →
  ∃ p, patch.Calculate live newObj ignores = inr p ∧ patch.IsEmpty p = true.
Proof.
  intros Hsame. rewrite Calculate_ignores. eexists. split; [reflexivity|].
  unfold patch.IsEmpty. cbn. apply bool_decide_eq_true.
  rewrite (strip_sameButIgnored _ _ Hsame).
  apply threeWayMerge_empty. split; [done|]. by intros p _ Hm.
Qed.

(** ** The apply engine and the logs of the normal path *)

Section Apply.
Context {W : Type}.
Variable r : ModelRegistryReconciler W.
Variable lib : Libraries.

Lemma createOrUpdate_absent (currObj newObj : Object) (w w1 : W) (e : goError) :
  GetObject (client r) (TypeOf currObj) (ObjectKeyFromObject newObj) w = (inl e, w1) →
  errors.IsNotFound (Some e) = true →
  createOrUpdate r lib currObj newObj w =
    match SetLastAppliedAnnotation lib newObj with
    | inl err =>
        {| value := (ResourceCreated, Some err); world := w1;
           log := [readOf currObj newObj (Some e)] |}
    | inr annotated =>
        {| value := (ResourceCreated, errorOf (Create (client r) annotated w1).1);
           world := (Create (client r) annotated w1).2;
           log := [readOf currObj newObj (Some e);
                   ClientCall (CallCreate annotated)
                     (errorOf (Create (client r) annotated w1).1)] |}
    end.
Proof.
  intros Hget Habsent. unfold createOrUpdate. run. rewrite Hget. cbn.
  rewrite (IgnoreNotFound_nil _ Habsent).
  destruct (SetLastAppliedAnnotation lib newObj) as [err|annotated]; cbn; [done|].
  by destruct (Create (client r) annotated w1) as [created w2].
Qed.

Lemma createOrUpdate_present (currObj newObj live : Object) (w w1 : W) :
  GetObject (client r) (TypeOf currObj) (ObjectKeyFromObject newObj) w = (inr live, w1) →
  createOrUpdate r lib currObj newObj w =
    match Calculate lib live newObj ignores with
    | inl err =>
        {| value := (ResourceUnchanged, Some err); world := w1;
           log := [readOf currObj newObj None] |}
    | inr p =>
        if patch.IsEmpty p then
          {| value := (ResourceUnchanged, None); world := w1;
             log := [readOf currObj newObj None] |}
        else
          match SetLastAppliedAnnotation lib newObj with
          | inl err =>
              {| value := (ResourceUpdated, Some err); world := w1;
                 log := [readOf currObj newObj None] |}
          | inr annotated =>
              {| value :=
                   (ResourceUpdated, errorOf (UpdateObject (client r) annotated w1).1);
                 world := (UpdateObject (client r) annotated w1).2;
                 log := [readOf currObj newObj None;
                         ClientCall (CallUpdateObject annotated)
                           (errorOf (UpdateObject (client r) annotated w1).1)] |}
          end
    end.
Proof.
  intros Hget. unfold createOrUpdate. run. rewrite Hget. cbn.
  change [patch.IgnoreStatusFields; patch.IgnoreField "apiVersion";
          patch.IgnoreField "kind"] with ignores.
  destruct (Calculate lib live newObj ignores) as [err|p]; cbn; [done|].
  destruct (patch.IsEmpty p); cbn; [done|].
  destruct (SetLastAppliedAnnotation lib newObj) as [err|annotated]; cbn; [done|].
  by destruct (UpdateObject (client r) annotated w1) as [updated w2].
Qed.

Lemma createOrUpdate_log (currObj newObj : Object) (w : W) :
  Forall quiet (log (createOrUpdate r lib currObj newObj w)).
Proof.
  program (createOrUpdate r lib currObj newObj w).
  unfold createOrUpdate. run. repeat stuck.
  all: unfold holds; cbn; repeat constructor.
Qed.

Lemma createOrUpdateTyped_log (t : ResourceType) (params : ModelRegistryParams)
  (registry : ModelRegistry) (templateName : string) (w : W) :
  Forall quiet (log (createOrUpdateTyped r lib t params registry templateName w)).
Proof.
  unfold createOrUpdateTyped. run.
  destruct (Apply r lib params templateName t) as [err|object]; cbn; [constructor|].
  destruct (SetControllerReference lib registry object) as [err|owned]; cbn; [constructor|].
  pose proof (createOrUpdate_log owned owned w) as Hlog.
  destruct (createOrUpdate r lib owned owned w) as [[result [err|]] w1 l1]; cbn in *.
  all: by rewrite app_nil_r.
Qed.

Lemma updateRegistryResources_log (params : ModelRegistryParams)
  (registry : ModelRegistry) (w : W) :
  Forall quiet (log (updateRegistryResources r lib params registry w)).
Proof.
  unfold updateRegistryResources, createOrUpdateServiceAccount, createOrUpdateService,
    createOrUpdateDeployment. run.
  pose proof (createOrUpdateTyped_log ServiceAccountType params registry
                "serviceaccount.yaml.tmpl" w) as H1.
  destruct (createOrUpdateTyped r lib ServiceAccountType _ _ _ w)
    as [[result [err|]] w1 l1]; cbn in *; [by rewrite app_nil_r|].
  pose proof (createOrUpdateTyped_log ServiceType params registry
                "service.yaml.tmpl" w1) as H2.
  destruct (createOrUpdateTyped r lib ServiceType _ _ _ w1)
    as [[result2 [err|]] w2 l2]; cbn in *; [rewrite !app_nil_r; by apply Forall_app|].
  pose proof (createOrUpdateTyped_log DeploymentType params registry
                "deployment.yaml.tmpl" w2) as H3.
  destruct (createOrUpdateTyped r lib DeploymentType _ _ _ w2)
    as [[result3 [err|]] w3 l3]; cbn in *.
  all: rewrite ?app_nil_r, ?Forall_app; auto.
Qed.

Lemma setRegistryStatus_log (req : Request) (operationResult : OperationResult) (w : W) :
  Forall quiet (log (setRegistryStatus r req operationResult w)).
Proof.
  program (setRegistryStatus r req operationResult w).
  unfold setRegistryStatus. run. repeat stuck.
  all: unfold holds; cbn; repeat constructor.
Qed.

Lemma logResultAsEvent_log (registry : ModelRegistry) (result : OperationResult) (w : W) :
  Forall quiet (log (logResultAsEvent registry result w)).
Proof. destruct result; cbn; repeat constructor. Qed.

(** The aggregate of three results: the last one that is not Unchanged. *)
Lemma updateRegistryResources_value (params : ModelRegistryParams)
  (registry : ModelRegistry) (w : W) :
  let o1 := createOrUpdateServiceAccount r lib params registry
              "serviceaccount.yaml.tmpl" w in
  let o2 := createOrUpdateService r lib params registry "service.yaml.tmpl" (world o1) in
  let o3 := createOrUpdateDeployment r lib params registry "deployment.yaml.tmpl"
              (world o2) in
  (value o1).2 = None → (value o2).2 = None → (value o3).2 = None →
  value (updateRegistryResources r lib params registry w) =
    (if bool_decide ((value o3).1 ≠ ResourceUnchanged) then (value o3).1
     else if bool_decide ((value o2).1 ≠ ResourceUnchanged) then (value o2).1
          else (value o1).1,
     None).
Proof.
  unfold updateRegistryResources. run.
  destruct (createOrUpdateServiceAccount r lib params registry _ w)
    as [[result1 [err1|]] w1 l1]; cbn; [done|]. intros _.
  destruct (createOrUpdateService r lib params registry _ w1)
    as [[result2 [err2|]] w2 l2]; cbn; [done|]. intros _.
  destruct (createOrUpdateDeployment r lib params registry _ w2)
    as [[result3 [err3|]] w3 l3]; cbn; [done|]. intros _.
  by destruct (bool_decide (result3 ≠ ResourceUnchanged)).
Qed.
End Apply.

(** ** Stepping through Reconcile *)

(** The next thing the deletion branch does. *)
Ltac next_call :=
  match goal with
  | |- context [Get ?c ?a ?w] =>
      is_var w; let E := fresh "E" in
      destruct (Get c a w) as [[?err|?obj] ?w] eqn:E; cbn
  | |- context [StatusUpdate ?c ?a ?w] =>
      is_var w; let E := fresh "E" in
      destruct (StatusUpdate c a w) as [[?err|?obj] ?w] eqn:E; cbn
  | |- context [Update ?c ?a ?w] =>
      is_var w; let E := fresh "E" in
      destruct (Update c a w) as [[?err|?obj] ?w] eqn:E; cbn
  | |- context [IgnoreDeletingErrors None] =>
      rewrite IgnoreDeletingErrors_nil; cbn
  | |- context [IgnoreDeletingErrors (Some ?e)] =>
      let E := fresh "I" in
      destruct (IgnoreDeletingErrors (Some e)) eqn:E; cbn
  | |- context [controllerutil.RemoveFinalizer ?o ?f] =>
      let E := fresh "L" in
      destruct (controllerutil.RemoveFinalizer o f) as [? []] eqn:E; cbn
  end.

(** The next thing the normal path does, with what is known of its log. *)
Ltac normal_path :=
  match goal with
  | |- context [updateRegistryResources ?r ?l ?p ?m ?w] =>
      is_var w; pose proof (updateRegistryResources_log r l p m w);
      destruct (updateRegistryResources r l p m w) as [[? [?|]] ? ?]; cbn in *
  | |- context [setRegistryStatus ?r ?q ?res ?w] =>
      is_var w; pose proof (setRegistryStatus_log r q res w);
      destruct (setRegistryStatus r q res w) as [[?|] ? ?]; cbn in *
  | |- context [@logResultAsEvent ?W ?m ?res ?w] =>
      pose proof (@logResultAsEvent_log W m res w);
      destruct (@logResultAsEvent W m res w) as [[] ? ?]; cbn in *
  | |- context [bool_decide (?res ≠ ResourceUnchanged)] =>
      destruct (bool_decide (res ≠ ResourceUnchanged)); cbn
  end.

(** An error that [IgnoreDeletingErrors] lets through is the error itself. *)
Ltac fatal_errors :=
  repeat match goal with
    | H : IgnoreDeletingErrors (Some ?e) = Some ?g |- _ =>
        assert (g = e) as -> by (apply IgnoreDeletingErrors_Some in H; congruence);
        revert H
    end; intros.

Ltac all_benign :=
  repeat match goal with
    | H : _ && _ = true |- _ => apply andb_prop in H as [? ?]
    | H : benign _ = true |- _ => apply bool_decide_eq_true in H
    | H : bool_decide _ = true |- _ => apply bool_decide_eq_true in H
    end.

Ltac quiet_log :=
  repeat first [rewrite app_nil_r | rewrite Forall_app | rewrite Forall_cons];
  repeat split; try done; try apply Forall_nil;
  try match goal with
    | H : controllerutil.RemoveFinalizer _ _ = _ |- quiet _ =>
        exact (carriesToken_removed _ _ _ _ H)
    end.

(** ** The claims *)

Section Properties.
Context {W : Type}.
Variable r : ModelRegistryReconciler W.
Variable lib : Libraries.

(** C1 (as amended). When [setRegistryStatus] has re-read the parent and
    the Deployment cannot be read, it returns the error of that read and
    does nothing more: no status write is issued, so the conditions it had
    computed are not persisted. *)
Theorem setRegistryStatus_deployment_unreadable
  (req : Request) (operationResult : OperationResult)
  (w w1 w2 : W) (modelRegistry : ModelRegistry) (err : goError) :
  Get (client r) (ReqKey req) w = (inr modelRegistry, w1) →
  GetDeployment (client r) (ReqKey req) w1 = (inl err, w2) →
  setRegistryStatus r req operationResult w =
    {| value := Some err; world := w2;
       log := [ClientCall (CallGet (ReqKey req)) None;
               ClientCall (CallGetDeployment (ReqKey req)) (Some err)] |}.
Proof.
  intros Hget Hdep. unfold setRegistryStatus. run. rewrite Hget. cbn.
  destruct operationResult; cbn; rewrite Hdep; reflexivity.
Qed.

(** C2 (as amended). The finalizer token is added exactly when the parent
    that was loaded lacks it, whether or not its deletion timestamp is set.
    If the parent holds the token, no update of the parent in the whole
    attempt carries the token.  If it lacks the token, the update that adds
    it is issued right after the load, before anything else; no later update
    carries the token, and if the adding update fails Reconcile returns its
    error without doing anything more. *)
Theorem finalizer_added_when_absent
  (req : Request) (w w1 : W) (modelRegistry : ModelRegistry) :
  Get (client r) (ReqKey req) w = (inr modelRegistry, w1) →
  let o := Reconcile r lib req w in
  let added :=
    withFinalizers modelRegistry
      (Finalizers modelRegistry ++ [modelRegistryFinalizer])%list in
  if controllerutil.ContainsFinalizer modelRegistry modelRegistryFinalizer then
    Forall (λ a, carriesToken a = false) (log o)
  else
    ∃ err rest,
      log o = ClientCall (CallGet (ReqKey req)) None
              :: ClientCall (CallUpdate added) err :: rest ∧
      Forall (λ a, carriesToken a = false) rest ∧
      (err ≠ None → rest = [] ∧ value o = ({| Requeue := false |}, err)).
Proof.
  intros Hget o added. subst o added.
  destruct (controllerutil.ContainsFinalizer modelRegistry modelRegistryFinalizer)
    eqn:Hfin.
  - program (Reconcile r lib req w).
    unfold Reconcile. run. rewrite Hget. cbn. rewrite Hfin. cbn.
    destruct (bool_decide (DeletionTimestamp modelRegistry ≠ None)); cbn.
    + rewrite Hfin. cbn. repeat next_call.
      all: unfold holds; cbn; fold quiet; quiet_log.
    + repeat normal_path.
      all: unfold holds; cbn; fold quiet; quiet_log.
  - program (Reconcile r lib req w).
    unfold Reconcile. run. rewrite Hget. cbn. rewrite Hfin. cbn.
    rewrite (AddFinalizer_absent _ _ Hfin). cbn.
    next_call.
    { unfold holds; cbn. eexists _, _. split; [reflexivity|]. split; [constructor|done]. }
    destruct (bool_decide (DeletionTimestamp obj ≠ None)); cbn.
    + destruct (controllerutil.ContainsFinalizer obj modelRegistryFinalizer); cbn.
      * repeat next_call.
        all: unfold holds; cbn; fold quiet.
        all: eexists _, _; (split; [reflexivity|]); (split; [quiet_log|done]).
      * unfold holds; cbn. eexists _, _. split; [reflexivity|]. split; [constructor|done].
    + repeat normal_path.
      all: unfold holds; cbn; fold quiet.
      all: eexists _, _; (split; [reflexivity|]); (split; [quiet_log|done]).
Qed.

(** C3. In the deletion branch (deletion timestamp set, finalizer present)
    [IgnoreDeletingErrors] returns nil exactly for nil, NotFound and
    Conflict; if every client call of the attempt answered with such an
    outcome Reconcile returns no error; the error it returns is never a
    NotFound or a Conflict; and any other error of a call is returned as it
    is, with no requeue flag, that call being the last thing done. *)
Theorem deleting_ignores_conflict
  (req : Request) (w w1 : W) (modelRegistry : ModelRegistry) :
  Get (client r) (ReqKey req) w = (inr modelRegistry, w1) →
  controllerutil.ContainsFinalizer modelRegistry modelRegistryFinalizer = true →
  DeletionTimestamp modelRegistry ≠ None →
  let o := Reconcile r lib req w in
  (∀ err, IgnoreDeletingErrors err = None ↔
          err = None ∨ errors.IsNotFound err = true ∨ errors.IsConflict err = true) ∧
  (forallb benign (log o) = true → (value o).2 = None) ∧
  (∀ e, (value o).2 = Some e → IgnoreDeletingErrors (Some e) = Some e) ∧
  (∀ c err, ClientCall c err ∈ log o → IgnoreDeletingErrors err ≠ None →
            value o = ({| Requeue := false |}, err) ∧
            last (log o) = Some (ClientCall c err)).
Proof.
  intros Hget Hfin Hdel o. split; [apply IgnoreDeletingErrors_spec|].
  subst o. program (Reconcile r lib req w).
  unfold Reconcile. run. rewrite Hget. cbn. rewrite Hfin. cbn.
  rewrite (bool_decide_eq_true_2 _ Hdel). cbn. rewrite Hfin. cbn.
  repeat next_call.
  all: unfold holds; cbn; fatal_errors.
  all: split; [intros Hall; all_benign
              | split; [intros e' [= <-] | intros c err' Hin Hne; in_log]].
  all: try done; try congruence.
Qed.

(** C5. With the patch maker as modelled, when the live object and the
    intended object differ in ignored fields only (status, apiVersion,
    kind), [createOrUpdate] returns Unchanged with no error and its read is
    the only call it makes; and changing ignored fields of the live object
    does not change the result that the next apply returns, so it never
    turns it into Updated. *)
Theorem createOrUpdate_ignored_fields
  (currObj newObj live : Object) (w w1 : W) :
  Calculate lib = patch.Calculate →
  GetObject (client r) (TypeOf currObj) (ObjectKeyFromObject newObj) w = (inr live, w1) →
  (sameButIgnored (Fields live) (Fields newObj) →
   createOrUpdate r lib currObj newObj w =
     {| value := (ResourceUnchanged, None); world := w1;
        log := [readOf currObj newObj None] |}) ∧
  (∀ (mutated : Object) (w' w1' : W),
     GetObject (client r) (TypeOf currObj) (ObjectKeyFromObject newObj) w'
       = (inr mutated, w1') →
     sameButIgnored (Fields mutated) (Fields live) →
     LastApplied mutated = LastApplied live →
     (value (createOrUpdate r lib currObj newObj w')).1 =
     (value (createOrUpdate r lib currObj newObj w)).1).
Proof.
  intros Hlib Hget. split.
  - intros Hsame. rewrite (createOrUpdate_present _ _ _ _ _ _ _ Hget), Hlib.
    by destruct (Calculate_sameButIgnored _ _ Hsame) as (p & -> & ->).
  - intros mutated w' w1' Hget' Hsame Hlast.
    rewrite (createOrUpdate_present _ _ _ _ _ _ _ Hget).
    rewrite (createOrUpdate_present _ _ _ _ _ _ _ Hget'). rewrite Hlib.
    rewrite !Calculate_ignores. unfold patch.IsEmpty. cbn.
    rewrite (strip_sameButIgnored _ _ Hsame), Hlast.
    destruct (bool_decide _); cbn; [done|].
    by destruct (SetLastAppliedAnnotation lib newObj) as [err|annotated].
Qed.

(** C6. On the normal path (the parent in hand has no deletion timestamp)
    and when none of the three applies returns an error, the aggregate of
    [updateRegistryResources] carries no error and is Unchanged exactly
    when the three results are Unchanged; and when Reconcile returns no
    error it asks for a requeue exactly when the aggregate is not
    Unchanged. *)
Theorem aggregate_result_and_requeue
  (req : Request) (w w2 : W) (obj : ModelRegistry) :
  entersWith r req w obj w2 →
  DeletionTimestamp obj = None →
  let registry := if negb (EnableWebhooks r) then Default lib obj else obj in
  let params :=
    {| ParamsName := Name (ReqKey req); ParamsNamespace := Namespace (ReqKey req);
       ParamsSpec := Spec registry |} in
  let o1 := createOrUpdateServiceAccount r lib params registry
              "serviceaccount.yaml.tmpl" w2 in
  let o2 := createOrUpdateService r lib params registry "service.yaml.tmpl" (world o1) in
  let o3 := createOrUpdateDeployment r lib params registry "deployment.yaml.tmpl"
              (world o2) in
  let aggregate := updateRegistryResources r lib params registry w2 in
  let o := Reconcile r lib req w in
  (value o1).2 = None → (value o2).2 = None → (value o3).2 = None →
  (value aggregate).2 = None ∧
  ((value aggregate).1 = ResourceUnchanged ↔
   (value o1).1 = ResourceUnchanged ∧ (value o2).1 = ResourceUnchanged ∧
   (value o3).1 = ResourceUnchanged) ∧
  ((value o).2 = None →
   (Requeue (value o).1 = true ↔ (value aggregate).1 ≠ ResourceUnchanged)).
Proof.
  intros Henter Hdel registry params o1 o2 o3 aggregate o H1 H2 H3.
  pose proof (updateRegistryResources_value r lib params registry w2 H1 H2 H3) as Hagg.
  fold o1 o2 o3 aggregate in Hagg.
  split; [by rewrite Hagg|]. split.
  { rewrite Hagg. cbn.
    destruct (value o1).1, (value o2).1, (value o3).1; cbn.
    all: split; [intros; try done | intros (? & ? & ?); try done].
    all: by repeat split. }
  assert (value o =
          if (let s := setRegistryStatus r req (value aggregate).1 in
              λ w3, value (s w3))
               (world (logResultAsEvent registry (value aggregate).1 (world aggregate)))
          is Some err
          then ({| Requeue := true |}, Some err)
          else ({| Requeue := bool_decide ((value aggregate).1 ≠ ResourceUnchanged) |},
                None)) as Ho.
  { subst o. destruct Henter as (loaded & w1 & Hget & [(Hfin & -> & ->)|(Hfin & Hadd)]).
    all: unfold Reconcile; run; rewrite Hget; cbn; rewrite Hfin; cbn.
    all: try (rewrite (AddFinalizer_absent _ _ Hfin); cbn; rewrite Hadd; cbn).
    all: rewrite (bool_decide_eq_false_2 (DeletionTimestamp _ ≠ None))
           by (rewrite Hdel; by intros []).
    all: cbn; fold registry; fold params; fold aggregate.
    all: destruct aggregate as [[result err] w3 l3]; cbn in *.
    all: assert (err = None) as -> by congruence.
    all: destruct (logResultAsEvent registry result w3) as [[] w4 l4]; cbn.
    all: destruct (setRegistryStatus r req result w4) as [[err|] w5 l5]; cbn; [done|].
    all: by destruct (bool_decide (result ≠ ResourceUnchanged)). }
  rewrite Ho. cbn.
  destruct (value (setRegistryStatus _ _ _ _)); cbn; [done|].
  intros _. by rewrite bool_decide_eq_true.
Qed.


(** C8. Loading the parent at the start of a reconcile: on a NotFound error
    Reconcile returns no error and no requeue, on any other read error it
    returns that error; in both cases the read is the only thing it did. *)
Theorem Reconcile_load_error (req : Request) (w w' : W) (err : goError) :
  Get (client r) (ReqKey req) w = (inl err, w') →
  Reconcile r lib req w =
    {| value := ({| Requeue := false |},
                 if errors.IsNotFound (Some err) then None else Some err);
       world := w';
       log := [ClientCall (CallGet (ReqKey req)) (Some err)] |}.
Proof.
  intros Hget. unfold Reconcile. run. rewrite Hget. cbn.
  destruct err as [[| |] |]; reflexivity.
Qed.

(** C9. [createOrUpdate] fixes the result before it annotates and writes.
    When the object is absent it returns Created with whatever error the
    annotator or the create returned: with the annotator's error no create
    was issued, with the create's error the create failed.  When the object
    is present and the patch is not empty it returns Updated in the same
    way.  So Created and Updated report a write that went through only when
    the error is nil. *)
Theorem createOrUpdate_result_before_write
  (currObj newObj : Object) (w w1 : W) (got : goError + Object) :
  GetObject (client r) (TypeOf currObj) (ObjectKeyFromObject newObj) w = (got, w1) →
  let o := createOrUpdate r lib currObj newObj w in
  let read := readOf currObj newObj (errorOf got) in
  (errors.IsNotFound (errorOf got) = true →
   (∀ err, SetLastAppliedAnnotation lib newObj = inl err →
           o = {| value := (ResourceCreated, Some err); world := w1; log := [read] |}) ∧
   (∀ annotated created w2,
      SetLastAppliedAnnotation lib newObj = inr annotated →
      Create (client r) annotated w1 = (created, w2) →
      o = {| value := (ResourceCreated, errorOf created); world := w2;
             log := [read; ClientCall (CallCreate annotated) (errorOf created)] |})) ∧
  (∀ live p,
     got = inr live →
     Calculate lib live newObj ignores = inr p →
     patch.IsEmpty p = false →
     (∀ err, SetLastAppliedAnnotation lib newObj = inl err →
             o = {| value := (ResourceUpdated, Some err); world := w1; log := [read] |}) ∧
     (∀ annotated updated w2,
        SetLastAppliedAnnotation lib newObj = inr annotated →
        UpdateObject (client r) annotated w1 = (updated, w2) →
        o = {| value := (ResourceUpdated, errorOf updated); world := w2;
               log := [read; ClientCall (CallUpdateObject annotated)
                               (errorOf updated)] |})).
Proof.
  intros Hget o read. subst o read. split.
  - intros Habsent. destruct got as [e|live]; [|done]. cbn in *.
    rewrite (createOrUpdate_absent _ _ _ _ _ _ _ Hget Habsent).
    split; [by intros err ->|]. intros annotated created w2 -> Hcreate.
    by rewrite Hcreate.
  - intros live p -> Hp Hempty. cbn.
    rewrite (createOrUpdate_present _ _ _ _ _ _ _ Hget), Hp, Hempty.
    split; [by intros err ->|]. intros annotated updated w2 -> Hupdate.
    by rewrite Hupdate.
Qed.

(** C10. When [setRegistryStatus] has read the parent and the Deployment,
    the status it writes carries an Available condition decided by the
    first condition of type Available in the Deployment's list alone (True
    with reason DeploymentAvailable if that condition is True, False with
    reason DeploymentUnavailable otherwise); if the list has no condition
    of that type, the Available condition is False with reason
    DeploymentUnavailable. *)
Theorem setRegistryStatus_available
  (req : Request) (operationResult : OperationResult)
  (w w1 w2 : W) (modelRegistry : ModelRegistry) (deployment : appsv1.Deployment) :
  Get (client r) (ReqKey req) w = (inr modelRegistry, w1) →
  GetDeployment (client r) (ReqKey req) w1 = (inr deployment, w2) →
  ∃ written err,
    log (setRegistryStatus r req operationResult w) =
      [ClientCall (CallGet (ReqKey req)) None;
       ClientCall (CallGetDeployment (ReqKey req)) None;
       ClientCall (CallStatusUpdate written) err] ∧
    (∀ before c after,
       appsv1.Conditions deployment = (before ++ c :: after)%list →
       Forall (λ c', appsv1.Type_ c' ≠ appsv1.DeploymentAvailable) before →
       appsv1.Type_ c = appsv1.DeploymentAvailable →
       meta.FindStatusCondition (Conditions written) ConditionTypeAvailable =
         Some (availableCondition (mrName modelRegistry)
                 (bool_decide (appsv1.Status c = ConditionTrue)))) ∧
    (Forall (λ c', appsv1.Type_ c' ≠ appsv1.DeploymentAvailable)
       (appsv1.Conditions deployment) →
     meta.FindStatusCondition (Conditions written) ConditionTypeAvailable =
       Some (availableCondition (mrName modelRegistry) false)).
Proof.
  intros Hget Hdep. unfold setRegistryStatus. run. rewrite Hget. cbn.
  destruct operationResult; cbn; rewrite Hdep; cbn.
  all: destruct (deploymentAvailable (appsv1.Conditions deployment)) eqn:Hav; cbn.
  all: destruct (StatusUpdate (client r) _ w2) as [[?|?] ?]; cbn.
  all: eexists _, _; split; [reflexivity|].
  all: split; [intros before c after Hc Hb Ht | intros Hnone].
  all: try (rewrite Hc, (deploymentAvailable_first _ _ _ Hb Ht) in Hav).
  all: try (rewrite (deploymentAvailable_none _ Hnone) in Hav; try discriminate).
  all: try rewrite Hav.
  all: try apply (FindStatusCondition_Set _ (availableCondition _ true)).
  all: try apply (FindStatusCondition_Set _ (availableCondition _ false)).
Qed.

End Properties.

(** C4. Over the store in memory, with the patch library as modelled and
    no fault injected: applying an intended object that the store does not
    hold returns Created, and applying the same object again, from the
    store as the first call left it, returns Unchanged after a single read. *)
Theorem createOrUpdate_idempotent
  (r : ModelRegistryReconciler memstore.Store) (lib : Libraries)
  (newObj : Object) (w : memstore.Store) :
  client r = memstore.Client →
  SetLastAppliedAnnotation lib = patch.SetLastAppliedAnnotation →
  Calculate lib = patch.Calculate →
  memstore.faults w = [] →
  memstore.objects w !! memstore.objectKey (TypeOf newObj) (ObjectKeyFromObject newObj)
    = None →
  let first := createOrUpdate r lib newObj newObj w in
  let second := createOrUpdate r lib newObj newObj (world first) in
  value first = (ResourceCreated, None) ∧
  value second = (ResourceUnchanged, None) ∧
  log second = [readOf newObj newObj None].
Proof.
  intros Hclient Hannotate Hcalculate Hfaults Hfree first second.
  set (annotated := {| TypeOf := TypeOf newObj; ObjNamespace := ObjNamespace newObj;
                       ObjName := ObjName newObj; Fields := Fields newObj;
                       LastApplied := Some (Fields newObj) |}).
  set (key := (typeName (TypeOf newObj), (ObjNamespace newObj, ObjName newObj))).
  change (memstore.objects w !! key = None) in Hfree.
  set (w2 := memstore.withObjects w (<[key := annotated]> (memstore.objects w))).
  assert (first = {| value := (ResourceCreated, None); world := w2;
                     log := [readOf newObj newObj (Some memstore.notFound);
                             ClientCall (CallCreate annotated) None] |}) as Hfirst.
  { subst first.
    rewrite (createOrUpdate_absent r lib newObj newObj w w memstore.notFound).
    - rewrite Hannotate, Hclient. cbn.
      unfold memstore.create, memstore.guarded. rewrite Hfaults.
      change (memstore.objectKey _ _) with key. by rewrite Hfree.
    - rewrite Hclient. cbn. unfold memstore.getObject, memstore.guarded.
      rewrite Hfaults.
      change (memstore.objectKey _ _) with key.
      by rewrite Hfree.
    - done. }
  assert (second = {| value := (ResourceUnchanged, None); world := w2;
                      log := [readOf newObj newObj None] |}) as Hsecond.
  { subst second. rewrite Hfirst. cbn.
    rewrite (createOrUpdate_present r lib newObj newObj annotated w2 w2).
    - rewrite Hcalculate.
      destruct (Calculate_sameButIgnored annotated newObj) as (p & -> & ->); done.
    - rewrite Hclient. cbn. unfold memstore.getObject, memstore.guarded. cbn.
      rewrite Hfaults.
      change (memstore.objectKey _ _) with key.
      by rewrite lookup_insert_eq. }
  by rewrite Hfirst, Hsecond.
Qed.

(** ** The claims on concrete runs *)

(** C1, as the claim states it, fails: with the parent in the store and no
    Deployment, [setRegistryStatus] returns the NotFound error of the read,
    issues no status write, and the stored parent keeps its empty list of
    conditions. *)
Lemma setRegistryStatus_fails_hard :
  let w := storeWith (demo [modelRegistryFinalizer] None) [] in
  let o := setRegistryStatus exampleReconciler demoRequest ResourceUnchanged w in
  value o = Some memstore.notFound ∧
  existsb isStatusWrite (log o) = false ∧
  Conditions <$> memstore.parents (world o) !! ("ns1", "demo") = Some [].
Proof. repeat split; reflexivity. Qed.

(** C1 (as amended) on that store. *)
Lemma setRegistryStatus_deployment_unreadable_witness :
  let w := storeWith (demo [modelRegistryFinalizer] None) [] in
  setRegistryStatus exampleReconciler demoRequest ResourceCreated w =
    {| value := Some memstore.notFound; world := w;
       log := [ClientCall (CallGet demoKey) None;
               ClientCall (CallGetDeployment demoKey) (Some memstore.notFound)] |}.
Proof.
  intros w.
  apply (setRegistryStatus_deployment_unreadable exampleReconciler demoRequest
           ResourceCreated w w w (demo [modelRegistryFinalizer] None) memstore.notFound).
  all: reflexivity.
Defined.

(** C2, as the claim states it, fails: the parent carries a deletion
    timestamp and another controller's finalizer but not the token, and the
    second thing Reconcile does is the update that adds the token. *)
Lemma finalizer_added_while_deleting :
  let parent := demo ["example.com/hold"] (Some 5%Z) in
  let o := Reconcile exampleReconciler modelLibraries demoRequest (storeWith parent []) in
  DeletionTimestamp parent = Some 5%Z ∧
  controllerutil.ContainsFinalizer parent modelRegistryFinalizer = false ∧
  log o !! 1 =
    Some (ClientCall
            (CallUpdate (demo ["example.com/hold"; modelRegistryFinalizer] (Some 5%Z)))
            None).
Proof. repeat split; reflexivity. Qed.

(** C2 (as amended) on that parent. *)
Lemma finalizer_added_when_absent_witness :
  let parent := demo ["example.com/hold"] (Some 5%Z) in
  let o := Reconcile exampleReconciler modelLibraries demoRequest (storeWith parent []) in
  ∃ err rest,
    log o = ClientCall (CallGet demoKey) None
            :: ClientCall
                 (CallUpdate (demo ["example.com/hold"; modelRegistryFinalizer] (Some 5%Z)))
                 err
            :: rest ∧
    Forall (λ a, carriesToken a = false) rest ∧
    (err ≠ None → rest = [] ∧ value o = ({| Requeue := false |}, err)).
Proof.
  intros parent.
  apply (finalizer_added_when_absent exampleReconciler modelLibraries demoRequest
           (storeWith parent []) (storeWith parent []) parent).
  reflexivity.
Defined.

(** C3 on a deletion whose first status write answers Conflict: the
    conflict is in the log and Reconcile returns no error. *)
Lemma deleting_ignores_conflict_witness :
  let w := storeWith (demo [modelRegistryFinalizer] (Some 5%Z)) [None; Some conflict] in
  let o := Reconcile exampleReconciler modelLibraries demoRequest w in
  ClientCall (CallStatusUpdate
                (setCondition (demo [modelRegistryFinalizer] (Some 5%Z))
                   {| metav1.Type_ := ConditionTypeDegraded;
                      metav1.Status := ConditionUnknown;
                      metav1.Reason := "Finalizing";
                      metav1.Message :=
                        "Performing finalizer operations for the custom resource: demo " |}))
    (Some conflict) ∈ log o ∧
  (value o).2 = None.
Proof.
  intros w o. split.
  - apply list_elem_of_further, list_elem_of_here.
  - apply (deleting_ignores_conflict exampleReconciler modelLibraries demoRequest
             w (memstore.withFaults w [Some conflict])
             (demo [modelRegistryFinalizer] (Some 5%Z))).
    all: try reflexivity.
    discriminate.
Defined.

(** C4 on the rendered workload and an empty store. *)
Lemma createOrUpdate_idempotent_witness :
  let first :=
    createOrUpdate exampleReconciler modelLibraries workload workload (emptyStore []) in
  let second :=
    createOrUpdate exampleReconciler modelLibraries workload workload (world first) in
  value first = (ResourceCreated, None) ∧
  value second = (ResourceUnchanged, None) ∧
  log second = [readOf workload workload None].
Proof.
  apply (createOrUpdate_idempotent exampleReconciler modelLibraries workload
           (emptyStore [])).
  all: reflexivity.
Defined.

(** The live workload has a status and no kind; the rendered one has a kind
    and no status. *)
Lemma liveWorkload_sameButIgnored :
  sameButIgnored (Fields (liveWorkload "img:v1")) (Fields workload).
Proof.
  intros p Hp. cbn.
  destruct (decide (p = ["kind"])) as [->|Hkind].
  { destruct Hp. right. by right. }
  destruct (decide (p = ["status"; "replicas"])) as [->|Hstatus].
  { destruct Hp. by left. }
  rewrite (lookup_insert_ne _ ["kind"]) by done.
  destruct (decide (p = ["spec"; "image"])) as [->|Hspec].
  - by rewrite lookup_insert_eq, lookup_singleton_eq.
  - rewrite lookup_insert_ne by done. by rewrite !lookup_singleton_ne.
Qed.

(** C5 on the live workload. *)
Lemma createOrUpdate_ignored_fields_witness :
  let w := storeWithWorkload (demo [modelRegistryFinalizer] None)
             (liveWorkload "img:v1") [] [] in
  value (createOrUpdate exampleReconciler modelLibraries workload workload w)
    = (ResourceUnchanged, None) ∧
  log (createOrUpdate exampleReconciler modelLibraries workload workload w)
    = [readOf workload workload None].
Proof.
  intros w.
  assert (createOrUpdate exampleReconciler modelLibraries workload workload w =
            {| value := (ResourceUnchanged, None); world := w;
               log := [readOf workload workload None] |}) as ->; [|by split].
  apply (createOrUpdate_ignored_fields exampleReconciler modelLibraries
           workload workload (liveWorkload "img:v1") w w).
  - reflexivity.
  - reflexivity.
  - exact liveWorkload_sameButIgnored.
Defined.

(** C6 on the first normal reconcile of a parent that holds the token: the
    three resources are created and Reconcile asks for a requeue. *)
Lemma aggregate_result_and_requeue_witness :
  let parent := demo [modelRegistryFinalizer] None in
  let w := storeWith parent [] in
  let params :=
    {| ParamsName := "demo"; ParamsNamespace := "ns1"; ParamsSpec := Spec parent |} in
  let aggregate :=
    updateRegistryResources exampleReconciler modelLibraries params parent w in
  let o := Reconcile exampleReconciler modelLibraries demoRequest w in
  value aggregate = (ResourceCreated, None) ∧
  value o = ({| Requeue := true |}, None) ∧
  (Requeue (value o).1 = true ↔ (value aggregate).1 ≠ ResourceUnchanged).
Proof.
  intros parent w params aggregate o.
  split; [reflexivity|]. split; [reflexivity|].
  apply (aggregate_result_and_requeue exampleReconciler modelLibraries demoRequest
           w w parent).
  - exists parent, w. split; [reflexivity|]. left. by repeat split.
  - reflexivity.
  - reflexivity.
  - reflexivity.
  - reflexivity.
  - reflexivity.
Defined.


(** C8 on a store without the parent, and on a store that times out. *)
Lemma Reconcile_load_error_witness :
  value (Reconcile exampleReconciler modelLibraries demoRequest (emptyStore []))
    = ({| Requeue := false |}, None) ∧
  log (Reconcile exampleReconciler modelLibraries demoRequest (emptyStore []))
    = [ClientCall (CallGet demoKey) (Some memstore.notFound)] ∧
  value (Reconcile exampleReconciler modelLibraries demoRequest (emptyStore [Some timeout]))
    = ({| Requeue := false |}, Some timeout) ∧
  log (Reconcile exampleReconciler modelLibraries demoRequest (emptyStore [Some timeout]))
    = [ClientCall (CallGet demoKey) (Some timeout)].
Proof.
  rewrite (Reconcile_load_error exampleReconciler modelLibraries demoRequest
             (emptyStore []) (emptyStore []) memstore.notFound eq_refl).
  rewrite (Reconcile_load_error exampleReconciler modelLibraries demoRequest
             (emptyStore [Some timeout]) (emptyStore []) timeout eq_refl).
  by repeat split.
Defined.

(** C9 on four runs: the annotator fails before a create, the create times
    out, the annotator fails before an update, the update conflicts. *)
Lemma createOrUpdate_result_before_write_witness :
  createOrUpdate exampleReconciler failingAnnotator workload workload (emptyStore []) =
    {| value := (ResourceCreated, Some (PlainError "cannot encode"));
       world := emptyStore [];
       log := [readOf workload workload (Some memstore.notFound)] |} ∧
  createOrUpdate exampleReconciler modelLibraries workload workload
    (emptyStore [None; Some timeout]) =
    {| value := (ResourceCreated, Some timeout);
       world := emptyStore [];
       log := [readOf workload workload (Some memstore.notFound);
               ClientCall (CallCreate annotatedWorkload) (Some timeout)] |} ∧
  createOrUpdate exampleReconciler failingAnnotator workload workload (staleStore []) =
    {| value := (ResourceUpdated, Some (PlainError "cannot encode"));
       world := staleStore [];
       log := [readOf workload workload None] |} ∧
  createOrUpdate exampleReconciler modelLibraries workload workload
    (staleStore [None; Some conflict]) =
    {| value := (ResourceUpdated, Some conflict);
       world := staleStore [];
       log := [readOf workload workload None;
               ClientCall (CallUpdateObject annotatedWorkload) (Some conflict)] |}.
Proof.
  split; [|split; [|split]].
  - apply (proj1 (proj1 (createOrUpdate_result_before_write exampleReconciler
                           failingAnnotator workload workload (emptyStore [])
                           (emptyStore []) (inl memstore.notFound) eq_refl) eq_refl)).
    reflexivity.
  - apply (proj2 (proj1 (createOrUpdate_result_before_write exampleReconciler
                           modelLibraries workload workload
                           (emptyStore [None; Some timeout]) (emptyStore [Some timeout])
                           (inl memstore.notFound) eq_refl) eq_refl)
             annotatedWorkload (inl timeout) (emptyStore [])).
    all: reflexivity.
  - apply (proj1 (proj2 (createOrUpdate_result_before_write exampleReconciler
                           failingAnnotator workload workload (staleStore [])
                           (staleStore []) (inr (liveWorkload "img:v0")) eq_refl)
                    (liveWorkload "img:v0") _ eq_refl eq_refl eq_refl)).
    reflexivity.
  - apply (proj2 (proj2 (createOrUpdate_result_before_write exampleReconciler
                           modelLibraries workload workload
                           (staleStore [None; Some conflict]) (staleStore [Some conflict])
                           (inr (liveWorkload "img:v0")) eq_refl)
                    (liveWorkload "img:v0") _ eq_refl eq_refl eq_refl)
             annotatedWorkload (inl conflict) (staleStore [])).
    all: reflexivity.
Defined.

(** C10 on a Deployment that reports Available False before Available
    True: the first one decides. *)
Lemma setRegistryStatus_available_witness :
  let w := storeWithWorkload (demo [modelRegistryFinalizer] None)
             (liveWorkload "img:v1") reported [] in
  ∃ written err,
    log (setRegistryStatus exampleReconciler demoRequest ResourceUnchanged w) =
      [ClientCall (CallGet demoKey) None;
       ClientCall (CallGetDeployment demoKey) None;
       ClientCall (CallStatusUpdate written) err] ∧
    meta.FindStatusCondition (Conditions written) ConditionTypeAvailable =
      Some {| metav1.Type_ := "Available"; metav1.Status := ConditionFalse;
              metav1.Reason := "DeploymentUnavailable";
              metav1.Message := "Deployment for custom resource demo is not available" |}.
Proof.
  intros w.
  destruct (setRegistryStatus_available exampleReconciler demoRequest ResourceUnchanged
              w w w (demo [modelRegistryFinalizer] None)
              {| appsv1.Name := "demo"; appsv1.Conditions := reported |}
              eq_refl eq_refl)
    as (written & err & Hlog & Hfirst & _).
  exists written, err. split; [exact Hlog|].
  apply (Hfirst [ {| appsv1.Type_ := "Progressing"; appsv1.Status := ConditionTrue |} ]
           {| appsv1.Type_ := "Available"; appsv1.Status := ConditionFalse |}
           [ {| appsv1.Type_ := "Available"; appsv1.Status := ConditionTrue |} ]).
  - reflexivity.
  - by repeat constructor.
  - reflexivity.
Defined.

(** ** Further properties of the controller *)

Lemma IgnoreNotFound_other (err : goError) :
  errors.IsNotFound (Some err) = false → IgnoreNotFound (Some err) = Some err.
Proof. unfold IgnoreNotFound. by intros ->. Qed.

Lemma FindStatusCondition_Set_ne (conditions : list metav1.Condition)
  (c : metav1.Condition) (t : string) :
  t ≠ metav1.Type_ c →
  meta.FindStatusCondition (meta.SetStatusCondition conditions c) t
  = meta.FindStatusCondition conditions t.
Proof.
  intros Hne. induction conditions as [|c' rest IH]; cbn.
  - by rewrite decide_False.
  - destruct (decide (metav1.Type_ c' = metav1.Type_ c)) as [Heq|Hne']; cbn.
    + rewrite !decide_False by congruence. done.
    + by rewrite IH.
Qed.

Lemma SetStatusCondition_types (conditions : list metav1.Condition)
  (c : metav1.Condition) :
  metav1.Type_ <$> meta.SetStatusCondition conditions c =
    if bool_decide (metav1.Type_ c ∈ metav1.Type_ <$> conditions)
    then metav1.Type_ <$> conditions
    else ((metav1.Type_ <$> conditions) ++ [metav1.Type_ c])%list.
Proof.
  induction conditions as [|c' rest IH]; cbn; [done|].
  destruct (decide (metav1.Type_ c' = metav1.Type_ c)) as [Heq|Hne]; cbn.
  - rewrite bool_decide_eq_true_2 by (rewrite Heq; left). by rewrite Heq.
  - rewrite IH. destruct (bool_decide (metav1.Type_ c ∈ metav1.Type_ <$> rest)) eqn:Hin.
    + apply bool_decide_eq_true in Hin.
      by rewrite bool_decide_eq_true_2 by (by right).
    + apply bool_decide_eq_false in Hin.
      rewrite bool_decide_eq_false_2; [done|].
      intros Hin'. apply elem_of_cons in Hin' as [?|?]; congruence.
Qed.

Lemma SetStatusCondition_NoDup (conditions : list metav1.Condition)
  (c : metav1.Condition) :
  NoDup (metav1.Type_ <$> conditions) →
  NoDup (metav1.Type_ <$> meta.SetStatusCondition conditions c).
Proof.
  intros Hnd. rewrite SetStatusCondition_types. case_bool_decide as Hin; [done|].
  apply NoDup_app. split; [done|]. split; [|apply NoDup_singleton].
  intros t Ht Ht'. apply list_elem_of_singleton in Ht'. by subst.
Qed.

Lemma filter_none {A} (f : A → bool) (l : list A) :
  existsb f l = false → List.filter f l = [].
Proof.
  induction l as [|a l IH]; cbn; [done|].
  destruct (f a); cbn; [done|]. exact IH.
Qed.

Lemma isParentCall_only (l : list Action) :
  forallb isParentCall l = true →
  existsb isManagedWrite l = false ∧ existsb isEvent l = false ∧
  existsb managedWork l = false ∧ existsb isStatusWrite l = false.
Proof.
  induction l as [|a l IH]; cbn; [done|].
  intros [Ha Hl]%andb_true_iff. destruct (IH Hl) as (-> & -> & -> & ->).
  by destruct a as [[] ?|].
Qed.

Lemma managedWork_only (l : list Action) :
  forallb managedWork l = true →
  existsb isEvent l = false ∧ existsb isStatusWrite l = false ∧
  existsb isParentCall l = false.
Proof.
  induction l as [|a l IH]; cbn; [done|].
  intros [Ha Hl]%andb_true_iff. destruct (IH Hl) as (-> & -> & ->).
  by destruct a as [[] ?|].
Qed.

Lemma sameButIgnored_refl (d : Doc) : sameButIgnored d d.
Proof. by intros p _. Qed.

Lemma length_filter_elem (token : string) (l : list string) :
  token ∈ l → length l ≠ length (filter (λ e, e ≠ token) l).
Proof.
  intros Hin. pose proof (length_filter (λ e, e ≠ token) l) as Hle.
  intros Heq.
  assert (filter (λ e, e ≠ token) l = l) as Hall.
  { clear Hin Hle. induction l as [|a l IH]; [done|].
    rewrite filter_cons in *. destruct (decide (a ≠ token)); cbn in *.
    - f_equal. apply IH. lia.
    - pose proof (length_filter (λ e, e ≠ token) l). lia. }
  rewrite <- Hall in Hin. apply list_elem_of_filter in Hin as [Hne _]. done.
Qed.

Section Further.
Context {W : Type}.
Variable r : ModelRegistryReconciler W.
Variable lib : Libraries.

(** X1. createOrUpdateDeployment, createOrUpdateService and
    createOrUpdateServiceAccount: when the template cannot be rendered or
    decoded, or the owner reference cannot be set, the result is Unchanged
    with that error, no client call is made and the store is untouched.  A
    render error keeps the renderer's text after "error parsing templates ";
    a decode error is replaced by a fixed message that names the Go type,
    the name and the namespace.  Otherwise the call is createOrUpdate on the
    owned object, as both the current and the new one. *)
Theorem createOrUpdateTyped_render_failure
  (t : ResourceType) (params : ModelRegistryParams) (registry : ModelRegistry)
  (templateName : string) (w : W) :
  let o := createOrUpdateTyped r lib t params registry templateName w in
  let untouched err :=
    {| value := (ResourceUnchanged, Some err); world := w; log := [] |} in
  (∀ err, Apply r lib params templateName t = inl err →
          o = untouched err ∧
          (∀ e, Template r templateName params = inl e →
                errors.Error err = "error parsing templates " +:+ errors.Error e) ∧
          (∀ builder, Template r templateName params = inr builder →
                err = PlainError ("error creating " +:+ typeName t
                                    +:+ " for model registry " +:+ ParamsName params
                                    +:+ " in namespace " +:+ ParamsNamespace params))) ∧
  (∀ object err, Apply r lib params templateName t = inr object →
                 SetControllerReference lib registry object = inl err →
                 o = untouched err) ∧
  (∀ object owned, Apply r lib params templateName t = inr object →
                   SetControllerReference lib registry object = inr owned →
                   o = createOrUpdate r lib owned owned w).
Proof.
  intros o untouched. subst o untouched. unfold createOrUpdateTyped. run.
  destruct (Apply r lib params templateName t) as [err|object] eqn:Happly; cbn.
  - split; [|by split]. intros ? [= <-]. split; [done|].
    unfold Apply in Happly.
    destruct (Template r templateName params) as [e|builder].
    + injection Happly as <-. split; [|done]. by intros ? [= <-].
    + destruct (Unmarshal lib builder t) as [e|object]; [|done].
      injection Happly as <-. by split.
  - split; [done|].
    destruct (SetControllerReference lib registry object) as [err|owned] eqn:Howner; cbn.
    + split; intros ? ? [= <-] Howner'; rewrite Howner in Howner'; [|done].
      by injection Howner' as <-.
    + split; intros ? ? [= <-] Howner'; rewrite Howner in Howner'; [done|].
      injection Howner' as <-.
      destruct (createOrUpdate r lib owned owned w) as [[result [err|]] w1 l1]; cbn.
      all: by rewrite app_nil_r.
Qed.

(** X2. createOrUpdate makes one read and at most one write.  Either the log
    is the read alone, and then a nil error means Unchanged after a read that
    succeeded; or the read answered NotFound and is followed by one Create of
    the annotated object, with result Created and the Create's error; or the
    read succeeded and is followed by one Update of the annotated object,
    with result Updated and the Update's error. *)
Theorem createOrUpdate_one_read_one_write (currObj newObj : Object) (w : W) :
  let o := createOrUpdate r lib currObj newObj w in
  (∃ err, log o = [readOf currObj newObj err] ∧
          ((value o).2 = None → (value o).1 = ResourceUnchanged ∧ err = None)) ∨
  (∃ annotated err,
     SetLastAppliedAnnotation lib newObj = inr annotated ∧
     value o = (ResourceCreated, err) ∧
     (∃ e, errors.IsNotFound (Some e) = true ∧
           log o = [readOf currObj newObj (Some e);
                    ClientCall (CallCreate annotated) err])) ∨
  (∃ annotated err,
     SetLastAppliedAnnotation lib newObj = inr annotated ∧
     value o = (ResourceUpdated, err) ∧
     log o = [readOf currObj newObj None; ClientCall (CallUpdateObject annotated) err]).
Proof.
  intros o. subst o.
  destruct (GetObject (client r) (TypeOf currObj) (ObjectKeyFromObject newObj) w)
    as [[e|live] w1] eqn:Hget.
  - destruct (errors.IsNotFound (Some e)) eqn:Habsent.
    + rewrite (createOrUpdate_absent _ _ _ _ _ _ _ Hget Habsent).
      destruct (SetLastAppliedAnnotation lib newObj) as [err|annotated]; cbn.
      * left. eexists. by split.
      * right. left. eexists _, _. split; [done|]. split; [done|]. by exists e.
    + left. exists (Some e). pose proof (IgnoreNotFound_other _ Habsent) as Hother.
      unfold createOrUpdate. run. rewrite Hget. cbn. rewrite Hother. cbn. by split.
  - rewrite (createOrUpdate_present _ _ _ _ _ _ _ Hget).
    destruct (Calculate lib live newObj ignores) as [err|p]; cbn.
    { left. eexists. by split. }
    destruct (patch.IsEmpty p); cbn.
    { left. eexists. by split. }
    destruct (SetLastAppliedAnnotation lib newObj) as [err|annotated]; cbn.
    + left. eexists. by split.
    + right. right. by eexists _, _.
Qed.

(** X3. A read error of createOrUpdate other than NotFound is returned as
    it is, with result Unchanged, and nothing is written: the log holds the
    read alone and the store is as the read left it. *)
Theorem createOrUpdate_read_error
  (currObj newObj : Object) (w w1 : W) (err : goError) :
  GetObject (client r) (TypeOf currObj) (ObjectKeyFromObject newObj) w = (inl err, w1) →
  errors.IsNotFound (Some err) = false →
  createOrUpdate r lib currObj newObj w =
    {| value := (ResourceUnchanged, Some err); world := w1;
       log := [readOf currObj newObj (Some err)] |}.
Proof.
  intros Hget Hother. apply IgnoreNotFound_other in Hother.
  unfold createOrUpdate. run. rewrite Hget. cbn. by rewrite Hother.
Qed.

(** X4. updateRegistryResources applies the service account, the service and
    the deployment in that order and stops at the first error: the outcome is
    that of the failing step, the steps after it are not run, and the result
    returned with the error is the failing step's own, not the aggregate.
    With no error the result is the last one that is not Unchanged. *)
Theorem updateRegistryResources_stops_at_first_error
  (params : ModelRegistryParams) (registry : ModelRegistry) (w : W) :
  let o1 := createOrUpdateServiceAccount r lib params registry
              "serviceaccount.yaml.tmpl" w in
  let o2 := createOrUpdateService r lib params registry "service.yaml.tmpl" (world o1) in
  let o3 := createOrUpdateDeployment r lib params registry "deployment.yaml.tmpl"
              (world o2) in
  let o := updateRegistryResources r lib params registry w in
  match (value o1).2, (value o2).2, (value o3).2 with
  | Some _, _, _ => o = o1
  | None, Some _, _ =>
      value o = value o2 ∧ world o = world o2 ∧ log o = (log o1 ++ log o2)%list
  | None, None, Some _ =>
      value o = value o3 ∧ world o = world o3 ∧
      log o = (log o1 ++ log o2 ++ log o3)%list
  | None, None, None =>
      value o =
        (if bool_decide ((value o3).1 ≠ ResourceUnchanged) then (value o3).1
         else if bool_decide ((value o2).1 ≠ ResourceUnchanged) then (value o2).1
              else (value o1).1, None) ∧
      world o = world o3 ∧ log o = (log o1 ++ log o2 ++ log o3)%list
  end.
Proof.
  unfold updateRegistryResources. run.
  destruct (createOrUpdateServiceAccount r lib params registry _ w)
    as [[result1 [err1|]] w1 l1]; cbn; [by rewrite app_nil_r|].
  destruct (createOrUpdateService r lib params registry _ w1)
    as [[result2 [err2|]] w2 l2]; cbn; [by rewrite !app_nil_r|].
  destruct (createOrUpdateDeployment r lib params registry _ w2)
    as [[result3 [err3|]] w3 l3]; cbn; [by rewrite !app_nil_r|].
  rewrite !app_nil_r. by destruct (bool_decide (result3 ≠ ResourceUnchanged)).
Qed.

(** X5. setRegistryStatus makes at most three calls, the read of the parent,
    the read of the Deployment and one status write, in this order; it stops
    at the first read that fails and returns its error; otherwise it returns
    what the status write answered. *)
Theorem setRegistryStatus_first_failure
  (req : Request) (operationResult : OperationResult) (w : W) :
  let o := setRegistryStatus r req operationResult w in
  let read := CallGet (ReqKey req) in
  let workload := CallGetDeployment (ReqKey req) in
  (∃ err, value o = Some err ∧ log o = [ClientCall read (Some err)]) ∨
  (∃ err, value o = Some err ∧
          log o = [ClientCall read None; ClientCall workload (Some err)]) ∨
  (∃ written,
     log o = [ClientCall read None; ClientCall workload None;
              ClientCall (CallStatusUpdate written) (value o)]).
Proof.
  intros o read workload. subst o read workload.
  program (setRegistryStatus r req operationResult w).
  unfold setRegistryStatus. run. repeat stuck.
  all: unfold holds; cbn.
  all: first [ by left; eexists
             | by right; left; eexists
             | by right; right; eexists ].
Qed.

(** X6. When both reads succeed, the status that setRegistryStatus writes
    carries the Progressing condition of the operation result (False while
    creating or updating, True when unchanged), leaves every condition other
    than Progressing and Available as loaded, differs from the loaded parent
    in its conditions only, and has one condition per type when the loaded
    one had. *)
Theorem setRegistryStatus_written_status
  (req : Request) (operationResult : OperationResult)
  (w w1 w2 : W) (modelRegistry : ModelRegistry) (deployment : appsv1.Deployment) :
  Get (client r) (ReqKey req) w = (inr modelRegistry, w1) →
  GetDeployment (client r) (ReqKey req) w1 = (inr deployment, w2) →
  ∃ written,
    log (setRegistryStatus r req operationResult w) =
      [ClientCall (CallGet (ReqKey req)) None;
       ClientCall (CallGetDeployment (ReqKey req)) None;
       ClientCall (CallStatusUpdate written)
         (value (setRegistryStatus r req operationResult w))] ∧
    meta.FindStatusCondition (Conditions written) ConditionTypeProgressing =
      Some (progressingCondition (mrName modelRegistry) operationResult) ∧
    (∀ t, t ≠ ConditionTypeProgressing → t ≠ ConditionTypeAvailable →
          meta.FindStatusCondition (Conditions written) t =
          meta.FindStatusCondition (Conditions modelRegistry) t) ∧
    withConditions written (Conditions modelRegistry) = modelRegistry ∧
    (NoDup (metav1.Type_ <$> Conditions modelRegistry) →
     NoDup (metav1.Type_ <$> Conditions written)).
Proof.
  intros Hget Hdep. unfold setRegistryStatus. run. rewrite Hget. cbn.
  destruct operationResult; cbn; rewrite Hdep; cbn.
  all: destruct (deploymentAvailable (appsv1.Conditions deployment)); cbn.
  all: destruct (StatusUpdate (client r) _ w2) as [[?|?] ?]; cbn.
  all: eexists; split; [reflexivity|]; cbn.
  all: split;
         [rewrite FindStatusCondition_Set_ne by done;
          first
            [ apply (FindStatusCondition_Set _
                       (progressingCondition (mrName modelRegistry) ResourceUnchanged))
            | apply (FindStatusCondition_Set _
                       (progressingCondition (mrName modelRegistry) ResourceCreated))
            | apply (FindStatusCondition_Set _
                       (progressingCondition (mrName modelRegistry) ResourceUpdated)) ]|].
  all: split; [intros t Hp Ha; by rewrite !FindStatusCondition_Set_ne by done|].
  all: split; [by destruct modelRegistry|].
  all: intros Hnd; by do 2 apply SetStatusCondition_NoDup.
Qed.
Lemma createOrUpdate_writes (currObj newObj : Object) (w : W) :
  let o := createOrUpdate r lib currObj newObj w in
  forallb managedWork (log o) = true ∧
  ((value o).1 = ResourceUnchanged → existsb isManagedWrite (log o) = false).
Proof.
  intros o. subst o. program (createOrUpdate r lib currObj newObj w).
  unfold createOrUpdate. run. repeat stuck.
  all: unfold holds; cbn; by split.
Qed.

Lemma createOrUpdateTyped_writes (t : ResourceType) (params : ModelRegistryParams)
  (registry : ModelRegistry) (templateName : string) (w : W) :
  let o := createOrUpdateTyped r lib t params registry templateName w in
  forallb managedWork (log o) = true ∧
  ((value o).1 = ResourceUnchanged → existsb isManagedWrite (log o) = false).
Proof.
  unfold createOrUpdateTyped. run.
  destruct (Apply r lib params templateName t) as [err|object]; cbn; [done|].
  destruct (SetControllerReference lib registry object) as [err|owned]; cbn; [done|].
  pose proof (createOrUpdate_writes owned owned w) as Hlog.
  destruct (createOrUpdate r lib owned owned w) as [[result [err|]] w1 l1]; cbn in *.
  all: by rewrite app_nil_r.
Qed.

Lemma updateRegistryResources_writes (params : ModelRegistryParams)
  (registry : ModelRegistry) (w : W) :
  let o := updateRegistryResources r lib params registry w in
  forallb managedWork (log o) = true ∧
  (value o = (ResourceUnchanged, None) → existsb isManagedWrite (log o) = false).
Proof.
  unfold updateRegistryResources, createOrUpdateServiceAccount, createOrUpdateService,
    createOrUpdateDeployment. run.
  pose proof (createOrUpdateTyped_writes ServiceAccountType params registry
                "serviceaccount.yaml.tmpl" w) as [E1 H1].
  destruct (createOrUpdateTyped r lib ServiceAccountType _ _ _ w)
    as [[result [err|]] w1 l1]; cbn in *; [by rewrite app_nil_r|].
  pose proof (createOrUpdateTyped_writes ServiceType params registry
                "service.yaml.tmpl" w1) as [E2 H2].
  destruct (createOrUpdateTyped r lib ServiceType _ _ _ w1)
    as [[result2 [err|]] w2 l2]; cbn in *.
  { rewrite !app_nil_r, forallb_app, E1, E2. by split. }
  pose proof (createOrUpdateTyped_writes DeploymentType params registry
                "deployment.yaml.tmpl" w2) as [E3 H3].
  destruct (createOrUpdateTyped r lib DeploymentType _ _ _ w2)
    as [[result3 [err|]] w3 l3]; cbn in *.
  { rewrite !app_nil_r, !forallb_app, E1, E2, E3. by split. }
  rewrite !app_nil_r, !forallb_app, !existsb_app, E1, E2, E3. split; [done|].
  destruct result3; cbn; [|done..].
  destruct result2; cbn; [|done..].
  intros [= ->]. by rewrite H1, H2, H3.
Qed.

Lemma setRegistryStatus_writes (req : Request) (operationResult : OperationResult)
  (w : W) :
  let o := setRegistryStatus r req operationResult w in
  existsb isEvent (log o) = false ∧ existsb isManagedWrite (log o) = false.
Proof.
  intros o. subst o. program (setRegistryStatus r req operationResult w).
  unfold setRegistryStatus. run. repeat stuck.
  all: unfold holds; cbn; by split.
Qed.

Lemma Reconcile_normal (req : Request) (w w2 : W) (obj : ModelRegistry) :
  entersWith r req w obj w2 →
  DeletionTimestamp obj = None →
  let registry := if negb (EnableWebhooks r) then Default lib obj else obj in
  let params :=
    {| ParamsName := Name (ReqKey req); ParamsNamespace := Namespace (ReqKey req);
       ParamsSpec := Spec registry |} in
  let aggregate := updateRegistryResources r lib params registry w2 in
  let event := logResultAsEvent registry (value aggregate).1 (world aggregate) in
  let status := setRegistryStatus r req (value aggregate).1 (world event) in
  ∃ pre,
    forallb isParentCall pre = true ∧
    Reconcile r lib req w =
      match (value aggregate).2 with
      | Some err =>
          {| value := ({| Requeue := false |}, Some err); world := world aggregate;
             log := pre ++ log aggregate |}
      | None =>
          {| value :=
               match value status with
               | Some err => ({| Requeue := true |}, Some err)
               | None =>
                   ({| Requeue := bool_decide ((value aggregate).1 ≠ ResourceUnchanged) |},
                    None)
               end;
             world := world status;
             log := pre ++ log aggregate ++ log event ++ log status |}
      end.
Proof.
  intros Henter Hdel registry params aggregate event status.
  destruct Henter as (loaded & w1 & Hget & [(Hfin & -> & ->)|(Hfin & Hadd)]).
  - exists [ClientCall (CallGet (ReqKey req)) None]. split; [done|].
    unfold Reconcile; run; rewrite Hget; cbn; rewrite Hfin; cbn.
    rewrite (bool_decide_eq_false_2 (DeletionTimestamp _ ≠ None))
      by (rewrite Hdel; by intros []).
    cbn; fold registry; fold params; fold aggregate.
    subst event status.
    destruct aggregate as [[result [err|]] w3 l3]; cbn; [by rewrite app_nil_r|].
    destruct (logResultAsEvent registry result w3) as [[] w4 l4]; cbn.
    destruct (setRegistryStatus r req result w4) as [[err|] w5 l5]; cbn.
    { by rewrite !app_nil_r. }
    destruct (bool_decide (result ≠ ResourceUnchanged)); cbn; by rewrite !app_nil_r.
  - eexists [ClientCall (CallGet (ReqKey req)) None; ClientCall (CallUpdate _) None].
    split; [done|].
    unfold Reconcile; run; rewrite Hget; cbn; rewrite Hfin; cbn.
    rewrite (AddFinalizer_absent _ _ Hfin); cbn; rewrite Hadd; cbn.
    rewrite (bool_decide_eq_false_2 (DeletionTimestamp _ ≠ None))
      by (rewrite Hdel; by intros []).
    cbn; fold registry; fold params; fold aggregate.
    subst event status.
    destruct aggregate as [[result [err|]] w3 l3]; cbn; [by rewrite app_nil_r|].
    destruct (logResultAsEvent registry result w3) as [[] w4 l4]; cbn.
    destruct (setRegistryStatus r req result w4) as [[err|] w5 l5]; cbn.
    { by rewrite !app_nil_r. }
    destruct (bool_decide (result ≠ ResourceUnchanged)); cbn; by rewrite !app_nil_r.
Qed.

(** X7. On the normal path, an error of updateRegistryResources is returned
    with no requeue, the store as that step left it, no event and no status
    write; an error of setRegistryStatus is returned with Requeue set. *)
Theorem Reconcile_normal_errors (req : Request) (w w2 : W) (obj : ModelRegistry) :
  entersWith r req w obj w2 →
  DeletionTimestamp obj = None →
  let registry := if negb (EnableWebhooks r) then Default lib obj else obj in
  let params :=
    {| ParamsName := Name (ReqKey req); ParamsNamespace := Namespace (ReqKey req);
       ParamsSpec := Spec registry |} in
  let aggregate := updateRegistryResources r lib params registry w2 in
  let event := logResultAsEvent registry (value aggregate).1 (world aggregate) in
  let status := setRegistryStatus r req (value aggregate).1 (world event) in
  let o := Reconcile r lib req w in
  (∀ err, (value aggregate).2 = Some err →
          value o = ({| Requeue := false |}, Some err) ∧
          world o = world aggregate ∧
          existsb isEvent (log o) = false ∧
          existsb isStatusWrite (log o) = false) ∧
  (∀ err, (value aggregate).2 = None → value status = Some err →
          value o = ({| Requeue := true |}, Some err) ∧ world o = world status).
Proof.
  intros Henter Hdel registry params aggregate event status o.
  destruct (Reconcile_normal req w w2 obj Henter Hdel) as (pre & Hpre & Ho).
  fold registry params aggregate event status o in Ho. rewrite Ho.
  destruct (isParentCall_only _ Hpre) as (_ & Hev & _ & Hst).
  destruct (managedWork_only _ (proj1 (updateRegistryResources_writes params registry w2)))
    as (Hev' & Hst' & _).
  fold aggregate in Hev', Hst'.
  split.
  - intros err ->. cbn. by rewrite !existsb_app, Hev, Hev', Hst, Hst'.
  - intros err -> ->. by cbn.
Qed.

(** X8. On the normal path, when the three applies find nothing to do,
    Reconcile creates or updates no managed resource and records no event,
    and when it returns no error it asks for no requeue. *)
Theorem Reconcile_steady_state (req : Request) (w w2 : W) (obj : ModelRegistry) :
  entersWith r req w obj w2 →
  DeletionTimestamp obj = None →
  let registry := if negb (EnableWebhooks r) then Default lib obj else obj in
  let params :=
    {| ParamsName := Name (ReqKey req); ParamsNamespace := Namespace (ReqKey req);
       ParamsSpec := Spec registry |} in
  let aggregate := updateRegistryResources r lib params registry w2 in
  let o := Reconcile r lib req w in
  value aggregate = (ResourceUnchanged, None) →
  existsb isManagedWrite (log o) = false ∧
  existsb isEvent (log o) = false ∧
  ((value o).2 = None → value o = ({| Requeue := false |}, None)).
Proof.
  intros Henter Hdel registry params aggregate o Hagg.
  destruct (Reconcile_normal req w w2 obj Henter Hdel) as (pre & Hpre & Ho).
  fold registry params aggregate o in Ho. rewrite Ho.
  destruct (isParentCall_only _ Hpre) as (Hwr & Hev & _ & _).
  destruct (updateRegistryResources_writes params registry w2) as [Hall Hnone].
  fold aggregate in Hall, Hnone.
  destruct (managedWork_only _ Hall) as (Hev' & _ & _).
  specialize (Hnone Hagg). rewrite Hagg in *. cbn.
  set (w3 := world (logResultAsEvent registry ResourceUnchanged (world aggregate))).
  destruct (setRegistryStatus_writes req ResourceUnchanged w3) as [Hev'' Hwr''].
  rewrite !existsb_app, Hwr, Hev, Hnone, Hev', Hev'', Hwr''. cbn.
  repeat split. by destruct (value (setRegistryStatus r req ResourceUnchanged w3)).
Qed.

(** X9. On the normal path Reconcile records one Normal event when the
    aggregate result is Created (ServiceCreated) or Updated (ServiceUpdated),
    with the name and namespace of the registry in its message, and no event
    when the result is Unchanged or the applies failed. *)
Theorem Reconcile_normal_events (req : Request) (w w2 : W) (obj : ModelRegistry) :
  entersWith r req w obj w2 →
  DeletionTimestamp obj = None →
  let registry := if negb (EnableWebhooks r) then Default lib obj else obj in
  let params :=
    {| ParamsName := Name (ReqKey req); ParamsNamespace := Namespace (ReqKey req);
       ParamsSpec := Spec registry |} in
  let aggregate := updateRegistryResources r lib params registry w2 in
  let o := Reconcile r lib req w in
  let about := mrName registry +:+ " in namespace " +:+ mrNamespace registry in
  List.filter isEvent (log o) =
    match value aggregate with
    | (ResourceCreated, None) =>
        [RecorderEvent "Normal" "ServiceCreated"
           ("Created service for custom resource " +:+ about)]
    | (ResourceUpdated, None) =>
        [RecorderEvent "Normal" "ServiceUpdated"
           ("Updated service for custom resource " +:+ about)]
    | _ => []
    end.
Proof.
  intros Henter Hdel registry params aggregate o about.
  destruct (Reconcile_normal req w w2 obj Henter Hdel) as (pre & Hpre & Ho).
  fold registry params aggregate o in Ho. rewrite Ho.
  destruct (isParentCall_only _ Hpre) as (_ & Hev & _ & _).
  destruct (managedWork_only _ (proj1 (updateRegistryResources_writes params registry w2)))
    as (Hev' & _ & _).
  fold aggregate in Hev'.
  destruct (value aggregate) as [result [err|]]; cbn.
  - rewrite List.filter_app, (filter_none _ _ Hev), (filter_none _ _ Hev').
    by destruct result.
  - set (w3 := world (logResultAsEvent registry result (world aggregate))).
    destruct (setRegistryStatus_writes req result w3) as [Hev'' _].
    rewrite !List.filter_app, (filter_none _ _ Hev), (filter_none _ _ Hev'),
      (filter_none _ _ Hev'').
    by destruct result.
Qed.

(** X10. A reconcile of a parent whose deletion timestamp is set makes no
    call on a managed resource or on the Deployment, and never returns an
    error together with Requeue; when the parent in hand does not hold the
    token it returns at once, with no error, no status write and no event. *)
Theorem Reconcile_deleting_no_managed_work
  (req : Request) (w w2 : W) (obj : ModelRegistry) :
  entersWith r req w obj w2 →
  DeletionTimestamp obj ≠ None →
  let o := Reconcile r lib req w in
  existsb managedWork (log o) = false ∧
  Requeue (value o).1 && bool_decide ((value o).2 ≠ None) = false ∧
  (controllerutil.ContainsFinalizer obj modelRegistryFinalizer = false →
   value o = ({| Requeue := false |}, None) ∧ world o = w2 ∧
   existsb isStatusWrite (log o) = false ∧ existsb isEvent (log o) = false).
Proof.
  intros Henter Hdel o. subst o.
  destruct Henter as (loaded & w1 & Hget & [(Hfin & -> & ->)|(Hfin & Hadd)]).
  - program (Reconcile r lib req w).
    unfold Reconcile. run. rewrite Hget. cbn. rewrite Hfin. cbn.
    rewrite (bool_decide_eq_true_2 _ Hdel). cbn. rewrite Hfin. cbn.
    repeat next_call.
    all: unfold holds; cbn; by repeat split.
  - program (Reconcile r lib req w).
    unfold Reconcile. run. rewrite Hget. cbn. rewrite Hfin. cbn.
    rewrite (AddFinalizer_absent _ _ Hfin). cbn. rewrite Hadd. cbn.
    rewrite (bool_decide_eq_true_2 _ Hdel). cbn.
    destruct (controllerutil.ContainsFinalizer obj modelRegistryFinalizer); cbn.
    + repeat next_call.
      all: unfold holds; cbn; by repeat split.
    + unfold holds; cbn. by repeat split.
Qed.
End Further.

(** X14. IgnoreDeletingErrors answers nil or its argument; applying it
    twice is applying it once, and it absorbs client.IgnoreNotFound. *)
Theorem IgnoreDeletingErrors_idempotent (err : error) :
  (IgnoreDeletingErrors err = None ∨ IgnoreDeletingErrors err = err) ∧
  IgnoreDeletingErrors (IgnoreDeletingErrors err) = IgnoreDeletingErrors err ∧
  IgnoreDeletingErrors (IgnoreNotFound err) = IgnoreDeletingErrors err.
Proof.
  unfold IgnoreDeletingErrors, IgnoreNotFound.
  destruct err as [[[| |reason] message|message]|]; cbn; auto.
Qed.

Section InMemory.
Variable r : ModelRegistryReconciler memstore.Store.
Variable lib : Libraries.
Hypothesis Hclient : client r = memstore.Client.

(** X11. Over the store in memory with no fault injected: the reconcile of
    a parent that is being deleted and holds the token returns no error and
    no requeue after the six steps of the deletion branch; the store then
    holds the parent with both Degraded conditions set and the token taken
    off, or no parent when the token was its last finalizer; other parents
    and all managed objects are as before. *)
Theorem Reconcile_deleting_releases_parent
  (req : Request) (w : memstore.Store) (parent : ModelRegistry) :
  memstore.faults w = [] →
  memstore.parents w !! memstore.parentKey (ReqKey req) = Some parent →
  (mrNamespace parent, mrName parent) = memstore.parentKey (ReqKey req) →
  DeletionTimestamp parent ≠ None →
  modelRegistryFinalizer ∈ Finalizers parent →
  let o := Reconcile r lib req w in
  value o = ({| Requeue := false |}, None) ∧
  stepOf <$> log o = deletionSteps ∧
  memstore.parents (world o) !! memstore.parentKey (ReqKey req) =
    (if bool_decide (Finalizers (finalized parent) = []) then None
     else Some (finalized parent)) ∧
  (∀ k, k ≠ memstore.parentKey (ReqKey req) →
        memstore.parents (world o) !! k = memstore.parents w !! k) ∧
  memstore.objects (world o) = memstore.objects w.
Proof.
  intros Hf Hparent Hkey Hdel Htoken o. subst o.
  assert (controllerutil.ContainsFinalizer parent modelRegistryFinalizer = true) as Hfin.
  { by apply bool_decide_eq_true. }
  program (Reconcile r lib req w).
  unfold Reconcile. run. rewrite Hclient. cbn.
  unfold memstore.get, memstore.updateStatus, memstore.update, memstore.guarded. cbn.
  rewrite Hf, Hparent. cbn.
  rewrite Hfin. cbn. rewrite (bool_decide_eq_true_2 _ Hdel). cbn. rewrite Hfin. cbn.
  repeat (first [ rewrite Hf | rewrite Hkey | rewrite Hparent | rewrite lookup_insert_eq
                | rewrite IgnoreDeletingErrors_nil
                | progress unfold controllerutil.RemoveFinalizer
                | rewrite (bool_decide_eq_true_2 _ (length_filter_elem _ _ Htoken)) ];
          cbn).
  set (rest := filter (λ e, e ≠ modelRegistryFinalizer) (Finalizers parent)).
  assert (∀ (obj : ModelRegistry) err,
            Finalizers obj = rest →
            stepOf (ClientCall (CallUpdate obj) err) = StepRemoveFinalizer) as Hremoved.
  { intros obj err Hobj. unfold stepOf, controllerutil.ContainsFinalizer.
    rewrite bool_decide_eq_false_2; [done|]. rewrite Hobj. unfold rest.
    rewrite list_elem_of_filter. by intros [Hne _]. }
  destruct (decide (rest = [])) as [Hrest|Hrest].
  - rewrite (bool_decide_eq_true_2 (DeletionTimestamp parent ≠ None ∧ rest = [])) by done.
    rewrite (bool_decide_eq_true_2 (rest = [])) by done.
    cbn. rewrite IgnoreDeletingErrors_nil. cbn. unfold holds. cbn.
    rewrite !stepOf_degraded by done. rewrite Hremoved by done.
    split; [done|]. split; [done|]. split; [by rewrite lookup_delete_eq|].
    split; [|done]. intros k Hk. by rewrite lookup_delete_ne, !lookup_insert_ne.
  - rewrite (bool_decide_eq_false_2 (DeletionTimestamp parent ≠ None ∧ rest = []))
      by (by intros [_ ?]).
    rewrite (bool_decide_eq_false_2 (rest = [])) by done.
    cbn. rewrite IgnoreDeletingErrors_nil. cbn. unfold holds. cbn.
    rewrite !stepOf_degraded by done. rewrite Hremoved by done.
    split; [done|]. split; [done|]. split; [by rewrite lookup_insert_eq|].
    split; [|done]. intros k Hk. by rewrite !lookup_insert_ne.
Qed.
Hypothesis Hannotate : SetLastAppliedAnnotation lib = patch.SetLastAppliedAnnotation.
Hypothesis Hcalculate : Calculate lib = patch.Calculate.

Lemma mem_getObject (t : ResourceType) (key : NamespacedName) (w : memstore.Store) :
  memstore.faults w = [] →
  GetObject (client r) t key w =
    (match memstore.objects w !! memstore.objectKey t key with
     | Some obj => inr obj
     | None => inl memstore.notFound
     end, w).
Proof.
  intros Hf. rewrite Hclient. cbn. unfold memstore.getObject, memstore.guarded.
  rewrite Hf. by destruct (memstore.objects w !! _).
Qed.

Lemma mem_apply_settled (obj : Object) (w : memstore.Store) :
  memstore.faults w = [] → settled w obj →
  createOrUpdate r lib obj obj w =
    {| value := (ResourceUnchanged, None); world := w;
       log := [readOf obj obj None] |}.
Proof.
  intros Hf (live & p & Hlive & Hp & Hempty).
  rewrite (createOrUpdate_present r lib obj obj live w w).
  - by rewrite Hcalculate, Hp, Hempty.
  - rewrite (mem_getObject _ _ _ Hf). fold (keyOf obj). by rewrite Hlive.
Qed.

Lemma mem_apply_settles (obj : Object) (w : memstore.Store) :
  memstore.faults w = [] →
  let o := createOrUpdate r lib obj obj w in
  (value o).2 = None →
  settled (world o) obj ∧ memstore.faults (world o) = [] ∧
  (∀ k, k ≠ keyOf obj → memstore.objects (world o) !! k = memstore.objects w !! k).
Proof.
  intros Hf o. subst o.
  set (annotated := {| TypeOf := TypeOf obj; ObjNamespace := ObjNamespace obj;
                       ObjName := ObjName obj; Fields := Fields obj;
                       LastApplied := Some (Fields obj) |}).
  assert (∀ w', memstore.objects w' !! keyOf obj = Some annotated → settled w' obj)
    as Hannotated.
  { intros w' Hw'.
    destruct (Calculate_sameButIgnored annotated obj (sameButIgnored_refl _))
      as (p & Hp & Hempty).
    by exists annotated, p. }
  destruct (memstore.objects w !! keyOf obj) as [live|] eqn:Hlive.
  - rewrite (createOrUpdate_present r lib obj obj live w w);
      [|rewrite (mem_getObject _ _ _ Hf); fold (keyOf obj); by rewrite Hlive].
    rewrite Hcalculate, Calculate_ignores.
    destruct (patch.IsEmpty _) eqn:Hempty; cbn.
    + intros _. split; [|done]. eexists live, _. split; [done|].
      split; [apply Calculate_ignores|done].
    + rewrite Hannotate, Hclient. cbn.
      unfold memstore.updateObject, memstore.guarded. rewrite Hf.
      change (memstore.objectKey _ _) with (keyOf obj). rewrite Hlive. cbn.
      intros _. split; [|split; [done|]].
      * apply Hannotated. cbn. by rewrite lookup_insert_eq.
      * intros k Hk. by rewrite lookup_insert_ne.
  - rewrite (createOrUpdate_absent r lib obj obj w w memstore.notFound);
      [|rewrite (mem_getObject _ _ _ Hf); fold (keyOf obj); by rewrite Hlive|done].
    rewrite Hannotate, Hclient. cbn.
    unfold memstore.create, memstore.guarded. rewrite Hf.
    change (memstore.objectKey _ _) with (keyOf obj). rewrite Hlive. cbn.
    intros _. split; [|split; [done|]].
    + apply Hannotated. cbn. by rewrite lookup_insert_eq.
    + intros k Hk. by rewrite lookup_insert_ne.
Qed.

(** X12. Over the store in memory with the patch library as modelled and no
    fault injected: after any createOrUpdate that returned no error, whether
    it created, updated or changed nothing, the same call on the store it
    left returns Unchanged after a single read and leaves the store as it is. *)
Theorem createOrUpdate_settles (obj : Object) (w : memstore.Store) :
  memstore.faults w = [] →
  let first := createOrUpdate r lib obj obj w in
  let second := createOrUpdate r lib obj obj (world first) in
  (value first).2 = None →
  second = {| value := (ResourceUnchanged, None); world := world first;
              log := [readOf obj obj None] |}.
Proof.
  intros Hf first second Hok.
  destruct (mem_apply_settles obj w Hf Hok) as (Hsettled & Hf' & _).
  by apply mem_apply_settled.
Qed.

Lemma settled_frame (obj : Object) (w w' : memstore.Store) (k : string * (string * string)) :
  (∀ k', k' ≠ k → memstore.objects w' !! k' = memstore.objects w !! k') →
  keyOf obj ≠ k → settled w obj → settled w' obj.
Proof.
  intros Hframe Hk (live & p & Hlive & Hp). exists live, p.
  split; [|done]. by rewrite Hframe.
Qed.

(** What a wrapper that returned no error has rendered and left behind. *)
Lemma mem_typed_first (t : ResourceType) (params : ModelRegistryParams)
  (registry : ModelRegistry) (templateName : string) (w : memstore.Store) :
  typedLibraries lib →
  memstore.faults w = [] →
  let o := createOrUpdateTyped r lib t params registry templateName w in
  (value o).2 = None →
  ∃ object owned,
    Apply r lib params templateName t = inr object ∧
    SetControllerReference lib registry object = inr owned ∧
    TypeOf owned = t ∧
    settled (world o) owned ∧ memstore.faults (world o) = [] ∧
    (∀ k, k ≠ keyOf owned → memstore.objects (world o) !! k = memstore.objects w !! k).
Proof.
  intros [Hdecode Howner] Hf. unfold createOrUpdateTyped. run.
  destruct (Apply r lib params templateName t) as [err|object] eqn:Happly; cbn; [done|].
  destruct (SetControllerReference lib registry object) as [err|owned] eqn:Hown;
    cbn; [done|].
  pose proof (mem_apply_settles owned w Hf) as Hsettles. cbn in Hsettles.
  destruct (createOrUpdate r lib owned owned w) as [[result [err|]] w1 l1]; cbn in *;
    [done|].
  intros _. exists object, owned. repeat split; try apply Hsettles; try done.
  rewrite (Howner _ _ _ Hown). unfold Apply in Happly.
  destruct (Template r templateName params) as [?|builder]; [done|].
  destruct (Unmarshal lib builder t) as [?|decoded] eqn:Hdec; [done|].
  injection Happly as <-. by apply (Hdecode builder).
Qed.

Lemma mem_typed_second (t : ResourceType) (params : ModelRegistryParams)
  (registry : ModelRegistry) (templateName : string) (w : memstore.Store)
  (object owned : Object) :
  Apply r lib params templateName t = inr object →
  SetControllerReference lib registry object = inr owned →
  memstore.faults w = [] → settled w owned →
  createOrUpdateTyped r lib t params registry templateName w =
    {| value := (ResourceUnchanged, None); world := w;
       log := [readOf owned owned None] |}.
Proof.
  intros Happly Hown Hf Hsettled. unfold createOrUpdateTyped. run.
  rewrite Happly. cbn. rewrite Hown. cbn.
  by rewrite (mem_apply_settled owned w Hf Hsettled).
Qed.

Lemma keyOf_types (a b : Object) : TypeOf a ≠ TypeOf b → keyOf a ≠ keyOf b.
Proof.
  intros Hne [= Ht _ _]. apply Hne. by destruct (TypeOf a), (TypeOf b).
Qed.

(** X13. Over the store in memory, with decoders that keep the Go type they
    are given: after an updateRegistryResources that returned no error, the
    same call on the store it left returns Unchanged with no error, writes no
    managed resource and leaves the store as it is. *)
Theorem updateRegistryResources_converges
  (params : ModelRegistryParams) (registry : ModelRegistry) (w : memstore.Store) :
  typedLibraries lib →
  memstore.faults w = [] →
  let first := updateRegistryResources r lib params registry w in
  let second := updateRegistryResources r lib params registry (world first) in
  (value first).2 = None →
  value second = (ResourceUnchanged, None) ∧
  world second = world first ∧
  existsb isManagedWrite (log second) = false.
Proof.
  intros Htyped Hf first second. subst second first.
  unfold updateRegistryResources, createOrUpdateServiceAccount, createOrUpdateService,
    createOrUpdateDeployment. run.
  pose proof (mem_typed_first ServiceAccountType params registry
                "serviceaccount.yaml.tmpl" w Htyped Hf) as H1. cbn in H1.
  destruct (createOrUpdateTyped r lib ServiceAccountType _ _ _ w)
    as [[result1 [err1|]] w1 l1]; cbn in *; [done|].
  destruct (H1 eq_refl) as (object1 & owned1 & Ha1 & Ho1 & Ht1 & Hs1 & Hf1 & Hframe1).
  pose proof (mem_typed_first ServiceType params registry
                "service.yaml.tmpl" w1 Htyped Hf1) as H2. cbn in H2.
  destruct (createOrUpdateTyped r lib ServiceType _ _ _ w1)
    as [[result2 [err2|]] w2 l2]; cbn in *; [done|].
  destruct (H2 eq_refl) as (object2 & owned2 & Ha2 & Ho2 & Ht2 & Hs2 & Hf2 & Hframe2).
  pose proof (mem_typed_first DeploymentType params registry
                "deployment.yaml.tmpl" w2 Htyped Hf2) as H3. cbn in H3.
  destruct (createOrUpdateTyped r lib DeploymentType _ _ _ w2)
    as [[result3 [err3|]] w3 l3]; cbn in *; [done|].
  destruct (H3 eq_refl) as (object3 & owned3 & Ha3 & Ho3 & Ht3 & Hs3 & Hf3 & Hframe3).
  intros _.
  assert (settled w3 owned1) as Hs1'.
  { apply (settled_frame owned1 w2 w3 (keyOf owned3) Hframe3).
    { apply keyOf_types. by rewrite Ht1, Ht3. }
    apply (settled_frame owned1 w1 w2 (keyOf owned2) Hframe2); [|done].
    apply keyOf_types. by rewrite Ht1, Ht2. }
  assert (settled w3 owned2) as Hs2'.
  { apply (settled_frame owned2 w2 w3 (keyOf owned3) Hframe3); [|done].
    apply keyOf_types. by rewrite Ht2, Ht3. }
  rewrite (mem_typed_second _ _ _ _ w3 _ _ Ha1 Ho1 Hf3 Hs1'). cbn.
  rewrite (mem_typed_second _ _ _ _ w3 _ _ Ha2 Ho2 Hf3 Hs2'). cbn.
  rewrite (mem_typed_second _ _ _ _ w3 _ _ Ha3 Ho3 Hf3 Hs3). cbn.
  done.
Qed.
End InMemory.

(** ** The further properties on concrete runs *)

(** X3 on a store whose read of the workload times out. *)
Lemma createOrUpdate_read_error_witness :
  createOrUpdate exampleReconciler modelLibraries workload workload
    (emptyStore [Some timeout]) =
    {| value := (ResourceUnchanged, Some timeout); world := emptyStore [];
       log := [readOf workload workload (Some timeout)] |}.
Proof.
  apply (createOrUpdate_read_error exampleReconciler modelLibraries workload workload
           (emptyStore [Some timeout]) (emptyStore []) timeout).
  - reflexivity.
  - reflexivity.
Defined.

(** X6 on a parent that already carries a Degraded condition, after a
    reconcile that created the workload. *)
Lemma setRegistryStatus_written_status_witness :
  let degraded :=
    {| metav1.Type_ := ConditionTypeDegraded; metav1.Status := ConditionUnknown;
       metav1.Reason := "Finalizing"; metav1.Message := "interrupted" |} in
  let parent := withConditions (demo [modelRegistryFinalizer] None) [degraded] in
  let w := storeWithWorkload parent (liveWorkload "img:v1") reported [] in
  ∃ written,
    log (setRegistryStatus exampleReconciler demoRequest ResourceCreated w) =
      [ClientCall (CallGet demoKey) None;
       ClientCall (CallGetDeployment demoKey) None;
       ClientCall (CallStatusUpdate written)
         (value (setRegistryStatus exampleReconciler demoRequest ResourceCreated w))] ∧
    meta.FindStatusCondition (Conditions written) ConditionTypeProgressing =
      Some {| metav1.Type_ := "Progressing"; metav1.Status := ConditionFalse;
              metav1.Reason := "CreatingDeployment";
              metav1.Message := "Creating deployment for custom resource demo" |} ∧
    meta.FindStatusCondition (Conditions written) ConditionTypeDegraded = Some degraded ∧
    Finalizers written = [modelRegistryFinalizer].
Proof.
  intros degraded parent w.
  destruct (setRegistryStatus_written_status exampleReconciler demoRequest ResourceCreated
              w w w parent {| appsv1.Name := "demo"; appsv1.Conditions := reported |}
              eq_refl eq_refl)
    as (written & Hlog & Hprogressing & Hothers & Hrest & _).
  exists written. split; [exact Hlog|]. split; [exact Hprogressing|].
  split.
  - rewrite (Hothers ConditionTypeDegraded) by discriminate. reflexivity.
  - change (Finalizers (withConditions written (Conditions parent)) =
            [modelRegistryFinalizer]).
    rewrite Hrest. reflexivity.
Defined.

(** X7 on a reconcile whose annotator cannot encode the service account:
    the error comes back without a requeue, and no status is written. *)
Lemma Reconcile_normal_errors_witness :
  let w := storeWith (demo [modelRegistryFinalizer] None) [] in
  let o := Reconcile exampleReconciler failingAnnotator demoRequest w in
  value o = ({| Requeue := false |}, Some (PlainError "cannot encode")) ∧
  existsb isEvent (log o) = false ∧
  existsb isStatusWrite (log o) = false.
Proof.
  intros w o.
  assert (entersWith exampleReconciler demoRequest w
            (demo [modelRegistryFinalizer] None) w) as Henter.
  { exists (demo [modelRegistryFinalizer] None), w.
    split; [reflexivity|]. left. by repeat split. }
  destruct (proj1 (Reconcile_normal_errors exampleReconciler failingAnnotator demoRequest
                     w w (demo [modelRegistryFinalizer] None) Henter eq_refl)
              (PlainError "cannot encode") eq_refl)
    as (Hvalue & _ & Hevent & Hstatus).
  split; [exact Hvalue|]. split; [exact Hevent|exact Hstatus].
Defined.

(** X8 on the reconcile that follows a first, successful one: nothing is
    written to the managed resources and no requeue is asked for. *)
Lemma Reconcile_steady_state_witness :
  let w0 := storeWith (demo [modelRegistryFinalizer] None) [] in
  let w := world (Reconcile exampleReconciler modelLibraries demoRequest w0) in
  let o := Reconcile exampleReconciler modelLibraries demoRequest w in
  existsb isManagedWrite (log o) = false ∧
  existsb isEvent (log o) = false ∧
  value o = ({| Requeue := false |}, None).
Proof.
  intros w0 w o.
  assert (∃ obj, entersWith exampleReconciler demoRequest w obj w ∧
                 DeletionTimestamp obj = None ∧
                 obj = withConditions (demo [modelRegistryFinalizer] None)
                         (Conditions obj)) as (obj & Henter & Hlive & Hobj).
  { eexists. split; [|split].
    - eexists _, w. split; [reflexivity|]. left. split; [reflexivity|]. by split.
    - reflexivity.
    - reflexivity. }
  destruct (Reconcile_steady_state exampleReconciler modelLibraries demoRequest
              w w obj Henter Hlive)
    as (Hwrites & Hevents & Hvalue).
  { rewrite Hobj. reflexivity. }
  split; [exact Hwrites|]. split; [exact Hevents|].
  apply Hvalue. reflexivity.
Defined.

(** X9 on a first reconcile, which creates the three resources. *)
Lemma Reconcile_normal_events_witness :
  let w := storeWith (demo [modelRegistryFinalizer] None) [] in
  List.filter isEvent (log (Reconcile exampleReconciler modelLibraries demoRequest w)) =
    [RecorderEvent "Normal" "ServiceCreated"
       "Created service for custom resource demo in namespace ns1"].
Proof.
  intros w.
  assert (entersWith exampleReconciler demoRequest w
            (demo [modelRegistryFinalizer] None) w) as Henter.
  { exists (demo [modelRegistryFinalizer] None), w.
    split; [reflexivity|]. left. by repeat split. }
  exact (Reconcile_normal_events exampleReconciler modelLibraries demoRequest
           w w (demo [modelRegistryFinalizer] None) Henter eq_refl).
Defined.

(** X10 on a parent that is being deleted. *)
Lemma Reconcile_deleting_no_managed_work_witness :
  let w := storeWith (demo [modelRegistryFinalizer] (Some 5%Z)) [] in
  let o := Reconcile exampleReconciler modelLibraries demoRequest w in
  existsb managedWork (log o) = false ∧
  Requeue (value o).1 && bool_decide ((value o).2 ≠ None) = false.
Proof.
  intros w o.
  assert (entersWith exampleReconciler demoRequest w
            (demo [modelRegistryFinalizer] (Some 5%Z)) w) as Henter.
  { exists (demo [modelRegistryFinalizer] (Some 5%Z)), w.
    split; [reflexivity|]. left. by repeat split. }
  destruct (Reconcile_deleting_no_managed_work exampleReconciler modelLibraries
              demoRequest w w (demo [modelRegistryFinalizer] (Some 5%Z)) Henter
              ltac:(discriminate))
    as (Hwork & Hrequeue & _).
  split; [exact Hwork|exact Hrequeue].
Defined.

(** X11 on a parent that holds the token alone, which the store lets go,
    and on one that another controller still holds. *)
Lemma Reconcile_deleting_releases_parent_witness :
  let alone := storeWith (demo [modelRegistryFinalizer] (Some 5%Z)) [] in
  let held := storeWith (demo ["other/finalizer"; modelRegistryFinalizer] (Some 5%Z)) [] in
  memstore.parents (world (Reconcile exampleReconciler modelLibraries demoRequest alone))
    !! ("ns1", "demo") = None ∧
  Finalizers <$>
    memstore.parents (world (Reconcile exampleReconciler modelLibraries demoRequest held))
      !! ("ns1", "demo") = Some ["other/finalizer"].
Proof.
  intros alone held. split.
  - destruct (Reconcile_deleting_releases_parent exampleReconciler modelLibraries eq_refl
                demoRequest alone (demo [modelRegistryFinalizer] (Some 5%Z))
                eq_refl eq_refl eq_refl ltac:(discriminate) ltac:(set_solver))
      as (_ & _ & Hparent & _).
    exact Hparent.
  - destruct (Reconcile_deleting_releases_parent exampleReconciler modelLibraries eq_refl
                demoRequest held
                (demo ["other/finalizer"; modelRegistryFinalizer] (Some 5%Z))
                eq_refl eq_refl eq_refl ltac:(discriminate) ltac:(set_solver))
      as (_ & _ & Hparent & _).
    exact (f_equal (fmap Finalizers) Hparent).
Defined.

(** X12 on a store whose workload was applied from an older image: the
    first apply updates it, the second finds nothing to do. *)
Lemma createOrUpdate_settles_witness :
  let first :=
    createOrUpdate exampleReconciler modelLibraries workload workload (staleStore []) in
  value first = (ResourceUpdated, None) ∧
  createOrUpdate exampleReconciler modelLibraries workload workload (world first) =
    {| value := (ResourceUnchanged, None); world := world first;
       log := [readOf workload workload None] |}.
Proof.
  intros first. split; [reflexivity|].
  apply (createOrUpdate_settles exampleReconciler modelLibraries eq_refl eq_refl eq_refl
           workload (staleStore [])).
  - reflexivity.
  - reflexivity.
Defined.

(** X13 on the three resources of the demo registry. *)
Lemma updateRegistryResources_converges_witness :
  let parent := demo [modelRegistryFinalizer] None in
  let params :=
    {| ParamsName := "demo"; ParamsNamespace := "ns1"; ParamsSpec := Spec parent |} in
  let first :=
    updateRegistryResources exampleReconciler modelLibraries params parent
      (storeWith parent []) in
  let second :=
    updateRegistryResources exampleReconciler modelLibraries params parent (world first) in
  value first = (ResourceCreated, None) ∧
  value second = (ResourceUnchanged, None) ∧
  world second = world first ∧
  existsb isManagedWrite (log second) = false.
Proof.
  intros parent params first second. split; [reflexivity|].
  apply (updateRegistryResources_converges exampleReconciler modelLibraries
           eq_refl eq_refl eq_refl params parent (storeWith parent [])).
  - split.
    + intros builder t obj [= <-]. reflexivity.
    + intros registry obj owned [= <-]. reflexivity.
  - reflexivity.
  - reflexivity.
Defined.
